(** * Generalized linear models: the IRLS engine of [glm.py] and its results

    A shallow embedding of [scikits/statsmodels/glm.py]: the class [GLM]
    (construction, [estimate_scale], [predict], [fit]) and the class
    [GLMResults] (the cached diagnostics).  Python objects are records,
    attribute assignment is explicit state passing, exceptions are values
    of [exn], numpy arrays are [ndarray]s over IEEE binary64 numbers. *)

From Stdlib Require Import ZArith List Bool Ascii String Reals Lra Lia.
From Stdlib Require Import Floats.SpecFloat.
From stdpp Require Import gmap strings pretty.

Open Scope string_scope.
Open Scope Z_scope.

(** ** Numbers

    The array code of [glm.py] is written once over an interface of
    arithmetic operations.  The program runs it on binary64 (instance
    [float_arith]); the algebraic identities behind the diagnostics are
    read on the real numbers (instance [real_arith]). *)

Class Arith (T : Type) := {
  add : T -> T -> T;
  sub : T -> T -> T;
  mul : T -> T -> T;
  div : T -> T -> T;
  sqrt : T -> T;
  zero : T
}.

(** binary64: 53 bits of precision, infinities at exponent 1024. *)
Definition float : Type := spec_float.
Definition prec : Z := 53.
Definition emax : Z := 1024.

Definition of_Z (z : Z) : float := binary_normalize prec emax z 0 false.
Definition inf : float := S754_infinity false.
Definition nan : float := S754_nan.
Definition isnan (x : float) : bool :=
  match x with S754_nan => true | _ => false end.
Definition fabs (x : float) : float := SFabs x.
(** Python's [x > y] on floats: false as soon as one side is NaN. *)
Definition gtb (x y : float) : bool := SFltb y x.

#[export] Instance float_arith : Arith float := {|
  add := SFadd prec emax;
  sub := SFsub prec emax;
  mul := SFmul prec emax;
  div := SFdiv prec emax;
  sqrt := SFsqrt prec emax;
  zero := S754_zero false
|}.

#[export] Instance real_arith : Arith R := {|
  add := Rplus;
  sub := Rminus;
  mul := Rmult;
  div := Rdiv;
  sqrt := R_sqrt.sqrt;
  zero := 0%R
|}.

(** ** Exceptions *)

Inductive exn : Type :=
| ValueError (msg : string)
| IndexError (msg : string)
| TypeError (msg : string)
| AttributeError (name : string)
| UnboundLocalError (name : string).

Inductive result (A : Type) : Type :=
| Ok (a : A)
| Raise (e : exn).
Arguments Ok {A} a.
Arguments Raise {A} e.

Definition rbind {A B} (r : result A) (k : A -> result B) : result B :=
  match r with Ok a => k a | Raise e => Raise e end.

Declare Scope result_scope.
Delimit Scope result_scope with res.
Notation "'do' x <- r ; k" := (rbind r (fun x => k))
  (at level 10, x name, r at level 100, k at level 200) : result_scope.

Definition msg_broadcast : string :=
  "operands could not be broadcast together".
Definition msg_aligned : string := "matrices are not aligned".
Definition msg_index : string := "index out of range".

(** ** Arrays

    A numpy array of dimension 0, 1 or 2. [np.shape a = ()] exactly for
    [Scalar]. *)

Inductive ndarray (T : Type) : Type :=
| Scalar (x : T)
| Vector (xs : list T)
| Matrix (rows : list (list T)).
Arguments Scalar {T} x.
Arguments Vector {T} xs.
Arguments Matrix {T} rows.

Definition is_scalar {T} (a : ndarray T) : bool :=
  match a with Scalar _ => true | _ => false end.

(** [a.shape[0]] (and [len(a)]): fails on a 0-d array. *)
Definition shape0 {T} (a : ndarray T) : result nat :=
  match a with
  | Scalar _ => Raise (IndexError msg_index)
  | Vector xs => Ok (length xs)
  | Matrix rows => Ok (length rows)
  end.

Definition same_shape {T} (a b : ndarray T) : bool :=
  match a, b with
  | Scalar _, Scalar _ => true
  | Vector xs, Vector ys => Nat.eqb (length xs) (length ys)
  | Matrix r1, Matrix r2 =>
      bool_decide (map (@length T) r1 = map (@length T) r2)
  | _, _ => false
  end.

(** Python's [l[i]] on a list: a negative index counts from the end. *)
Definition py_index {A} (l : list A) (i : Z) : result A :=
  let n := Z.of_nat (length l) in
  let j := if i <? 0 then i + n else i in
  if (j <? 0) || (n <=? j) then Raise (IndexError msg_index)
  else match l !! Z.to_nat j with
       | Some x => Ok x
       | None => Raise (IndexError msg_index)
       end.

Section Numpy.
Context {T : Type} `{Arith T}.

(** Broadcasting along one axis: equal lengths pair up, a length-one
    side is repeated, anything else is refused. *)
Definition broadcast {A B} (f : A -> A -> option B) (xs ys : list A)
  : option (list B) :=
  if Nat.eqb (length xs) (length ys)
  then mapM (fun p => f (fst p) (snd p)) (zip xs ys)
  else match xs, ys with
       | [x], _ => mapM (f x) ys
       | _, [y] => mapM (fun x => f x y) xs
       | _, _ => None
       end.

Definition broadcast_rows (op : T -> T -> T) (r1 r2 : list (list T))
  : option (list (list T)) :=
  broadcast (broadcast (fun x y => Some (op x y))) r1 r2.

Definition lift {A} (o : option A) : result A :=
  match o with Some a => Ok a | None => Raise (ValueError msg_broadcast) end.

(** An elementwise binary operator of numpy, with broadcasting. *)
Definition np_binop (op : T -> T -> T) (a b : ndarray T)
  : result (ndarray T) :=
  match a, b with
  | Scalar x, Scalar y => Ok (Scalar (op x y))
  | Scalar x, Vector ys => Ok (Vector (map (op x) ys))
  | Vector xs, Scalar y => Ok (Vector (map (fun x => op x y) xs))
  | Scalar x, Matrix r => Ok (Matrix (map (map (op x)) r))
  | Matrix r, Scalar y => Ok (Matrix (map (map (fun x => op x y)) r))
  | Vector xs, Vector ys =>
      lift (Vector <$> broadcast (fun x y => Some (op x y)) xs ys)
  | Vector xs, Matrix r => lift (Matrix <$> broadcast_rows op [xs] r)
  | Matrix r, Vector ys => lift (Matrix <$> broadcast_rows op r [ys])
  | Matrix r1, Matrix r2 => lift (Matrix <$> broadcast_rows op r1 r2)
  end.

Definition np_add := np_binop add.
Definition np_sub := np_binop sub.
Definition np_mul := np_binop mul.
Definition np_div := np_binop div.

Definition np_map (f : T -> T) (a : ndarray T) : ndarray T :=
  match a with
  | Scalar x => Scalar (f x)
  | Vector xs => Vector (map f xs)
  | Matrix r => Matrix (map (map f) r)
  end.

Definition np_sqrt := np_map sqrt.
(** [a**2] and [np.power(a, 2)]. *)
Definition np_square := np_map (fun x => mul x x).

Definition elements (a : ndarray T) : list T :=
  match a with
  | Scalar x => [x]
  | Vector xs => xs
  | Matrix r => concat r
  end.

(** The sum of a list, accumulated in order from its first element;
    the sum of no elements is zero. *)
Definition sum_list (xs : list T) : T :=
  match xs with
  | [] => zero
  | x :: xs' => fold_left add xs' x
  end.

(** [np.sum(a)] and [a.sum()]. *)
Definition np_sum (a : ndarray T) : T :=
  match a with
  | Scalar x => x
  | _ => sum_list (elements a)
  end.

(** [a *= b]: on an array the result is stored in [a], whose shape
    cannot change; a numpy scalar is immutable and is rebound. *)
Definition np_imul (a b : ndarray T) : result (ndarray T) :=
  match a with
  | Scalar _ => np_mul a b
  | _ => (do r <- np_mul a b;
          if same_shape r a then Ok r
          else Raise (ValueError msg_broadcast))%res
  end.

Definition dot_list (xs ys : list T) : result T :=
  if Nat.eqb (length xs) (length ys)
  then Ok (sum_list (zip_with mul xs ys))
  else Raise (ValueError msg_aligned).

Fixpoint mapR {A B} (f : A -> result B) (l : list A) : result (list B) :=
  match l with
  | [] => Ok []
  | x :: l' => (do y <- f x; do ys <- mapR f l'; Ok (y :: ys))%res
  end.

Definition column (r : list (list T)) (j : nat) : list T :=
  omap (fun row => row !! j) r.

Definition columns (r : list (list T)) : list (list T) :=
  match r with
  | [] => []
  | row :: _ => map (column r) (seq 0 (length row))
  end.

Definition np_transpose (a : ndarray T) : ndarray T :=
  match a with
  | Matrix r => Matrix (columns r)
  | _ => a
  end.

(** [np.dot] on arrays of dimension at most two. *)
Definition np_dot (a b : ndarray T) : result (ndarray T) :=
  match a, b with
  | Scalar _, _ | _, Scalar _ => np_mul a b
  | Vector xs, Vector ys => (do d <- dot_list xs ys; Ok (Scalar d))%res
  | Matrix r, Vector ys =>
      (do v <- mapR (fun row => dot_list row ys) r; Ok (Vector v))%res
  | Vector xs, Matrix r =>
      (do v <- mapR (dot_list xs) (columns r); Ok (Vector v))%res
  | Matrix r1, Matrix r2 =>
      (do rows <- mapR (fun row => mapR (dot_list row) (columns r2)) r1;
       Ok (Matrix rows))%res
  end.
End Numpy.

Abbreviation arr := (ndarray float).

Definition one : float := of_Z 1.
(** [np.ones(n)] *)
Definition np_ones (n : nat) : arr := Vector (replicate n one).
(** [np.ones((n, 1))] *)
Definition np_ones_column (n : nat) : arr := Matrix (replicate n [one]).

(** ** Python values and strings *)

(** The values a caller can pass for [scale]: [None], a float, a string;
    an integer [PyInt] stands for the values of the other types. *)
Inductive pyval : Type :=
| PyNone
| PyFloat (f : float)
| PyStr (s : string)
| PyInt (z : Z).

(** Python's truth value, as tested by [not v]. *)
Definition truthy (v : pyval) : bool :=
  match v with
  | PyNone => false
  | PyFloat f => negb (SFeqb f zero)
  | PyStr s => negb (bool_decide (s = ""))
  | PyInt z => negb (z =? 0)
  end.

Definition lower_ascii (c : ascii) : ascii :=
  let n := nat_of_ascii c in
  if (Nat.leb 65 n && Nat.leb n 90)%bool then ascii_of_nat (n + 32) else c.

(** [s.lower()] *)
Fixpoint lower (s : string) : string :=
  match s with
  | EmptyString => EmptyString
  | String c s' => String (lower_ascii c) (lower s')
  end.

(** ** State and exceptions

    A method body is a function from the object's state to the state it
    leaves and either a value or the exception raised: the assignments
    made before an exception stay. *)

Definition SE (S A : Type) : Type := S -> S * result A.

Definition ret {S A} (a : A) : SE S A := fun s => (s, Ok a).
Definition raise {S A} (e : exn) : SE S A := fun s => (s, Raise e).
Definition bind {S A B} (c : SE S A) (k : A -> SE S B) : SE S B :=
  fun s => match c s with
           | (s', Ok a) => k a s'
           | (s', Raise e) => (s', Raise e)
           end.
Definition get {S} : SE S S := fun s => (s, Ok s).
Definition modify {S} (f : S -> S) : SE S unit := fun s => (f s, Ok tt).
Definition try {S A} (r : result A) : SE S A := fun s => (s, r).

Declare Scope se_scope.
Delimit Scope se_scope with se.
Notation "x <- c ; k" := (bind c (fun x => k))
  (at level 20, c at level 100, k at level 200) : se_scope.
Notation "c ;; k" := (bind c (fun _ => k))
  (at level 100, k at level 200, right associativity) : se_scope.

(** ** The collaborators of [glm.py] *)

Inductive FamilyClass : Type :=
| Gaussian | Binomial | Poisson | Gamma | InverseGaussian | NegativeBinomial.

#[export] Instance FamilyClass_eq_dec : EqDecision FamilyClass.
Proof. solve_decision. Defined.

Module Family.
(** Modelled from the spec: the family objects of the module [families],
    which is not among the sources.  A family is an immutable bundle of
    the methods [glm.py] calls on it; [class] is the class that
    [isinstance] tests see, [link_deriv] is [family.link.deriv],
    [initialize] is the data reshaping only the Binomial class has, and
    [loglike_fittedvalues] is [loglike] called with the keyword
    [fittedvalues], as it is for the NegativeBinomial class. *)
Record t : Type := {
  class : FamilyClass;
  variance : arr -> arr;
  link_deriv : arr -> arr;
  starting_mu : arr -> arr;
  predict : arr -> arr;
  fitted : arr -> arr;
  weights : arr -> arr;
  deviance : arr -> arr -> float;
  initialize : arr -> arr;
  loglike : arr -> arr -> arr -> float;
  loglike_fittedvalues : arr -> arr -> float;
  resid_anscombe : arr -> arr -> arr;
  resid_dev : arr -> arr -> arr
}.
End Family.

(** [isinstance(family, (families.Binomial, families.Poisson))] *)
Definition fixed_dispersion (f : Family.t) : bool :=
  match Family.class f with Binomial | Poisson => true | _ => false end.

Definition is_Binomial (f : Family.t) : bool :=
  bool_decide (Family.class f = Binomial).

Module WLS.
(** What [glm.py] reads of the object [WLS(endog, exog, weights).fit()]
    returns. *)
Record results : Type := {
  params : arr;
  fittedvalues : arr;
  normalized_cov_params : arr
}.
End WLS.

Module History.
(** The dictionary [history], whose three keys are fixed. *)
Record t : Type := {
  fittedvalues : list arr;
  params : list arr;
  deviance : list float
}.
End History.

Module Results.
(** A [GLMResults] object.  [params], [normalized_cov_params] and
    [scale] are stored by the base class; [model_endog] and
    [model_exog] are what [self.model.endog] and [self.model.exog]
    denote; [_cache] is the dictionary behind [cache_readonly]. *)
Record t : Type := {
  params : arr;
  normalized_cov_params : arr;
  scale : arr;
  family : Family.t;
  _endog : arr;
  nobs : Z;
  mu : arr;
  _data_weights : arr;
  df_resid : Z;
  df_model : Z;
  pinv_wexog : arr;
  model_endog : arr;
  model_exog : arr;
  _cache : gmap string arr
}.

Definition set_cache (c : gmap string arr) (r : t) : t :=
  {| params := params r; normalized_cov_params := normalized_cov_params r;
     scale := scale r; family := family r; _endog := _endog r;
     nobs := nobs r; mu := mu r; _data_weights := _data_weights r;
     df_resid := df_resid r; df_model := df_model r;
     pinv_wexog := pinv_wexog r; model_endog := model_endog r;
     model_exog := model_exog r; _cache := c |}.

(** A [GLMResults] object that [__init__] has not finished: it has the
    attributes the base class stores, [family] and [_endog], and [nobs]
    and [mu] once they are assigned; the attributes assigned later do not
    exist yet. *)
Record partial : Type := {
  p_params : arr;
  p_normalized_cov_params : arr;
  p_scale : arr;
  p_family : Family.t;
  p_endog : arr;
  p_nobs : option Z;
  p_mu : option arr;
  p_model_endog : arr;
  p_model_exog : arr
}.

Definition set_nobs (n : Z) (o : partial) : partial :=
  {| p_params := p_params o;
     p_normalized_cov_params := p_normalized_cov_params o;
     p_scale := p_scale o; p_family := p_family o; p_endog := p_endog o;
     p_nobs := Some n; p_mu := p_mu o;
     p_model_endog := p_model_endog o; p_model_exog := p_model_exog o |}.

Definition set_mu (mu : arr) (o : partial) : partial :=
  {| p_params := p_params o;
     p_normalized_cov_params := p_normalized_cov_params o;
     p_scale := p_scale o; p_family := p_family o; p_endog := p_endog o;
     p_nobs := p_nobs o; p_mu := Some mu;
     p_model_endog := p_model_endog o; p_model_exog := p_model_exog o |}.

(** What a model's [_results] refers to: an object that [__init__] has
    finished, or one that it left unfinished when it raised. *)
Inductive obj : Type :=
| Built (r : t)
| Unfinished (o : partial).

(** [o.params], which every object has. *)
Definition obj_params (o : obj) : arr :=
  match o with
  | Built r => params r
  | Unfinished o => p_params o
  end.
End Results.

Module GLM.
(** A [GLM] object.  The attributes that [fit] creates are absent
    ([None]) until then; [_results] is [None] until a results object
    is attached. *)
Record t : Type := {
  endog : arr;
  exog : arr;
  family : Family.t;
  history : History.t;
  iteration : Z;
  pinv_wexog : arr;
  normalized_cov_params : arr;
  df_model : Z;
  df_resid : Z;
  data_weights : option arr;
  scaletype : option pyval;
  weights : option arr;
  scale : option arr;
  mu : option arr;
  _results : option Results.obj;
  results : option Results.obj
}.

Definition set_endog v m :=
  let 'Build_t _ b c d e f g h i j k l n o p q := m in
  Build_t v b c d e f g h i j k l n o p q.
Definition set_history v m :=
  let 'Build_t a b c _ e f g h i j k l n o p q := m in
  Build_t a b c v e f g h i j k l n o p q.
Definition set_iteration v m :=
  let 'Build_t a b c d _ f g h i j k l n o p q := m in
  Build_t a b c d v f g h i j k l n o p q.
Definition set_pinv_wexog v m :=
  let 'Build_t a b c d e _ g h i j k l n o p q := m in
  Build_t a b c d e v g h i j k l n o p q.
Definition set_normalized_cov_params v m :=
  let 'Build_t a b c d e f _ h i j k l n o p q := m in
  Build_t a b c d e f v h i j k l n o p q.
Definition set_df_model v m :=
  let 'Build_t a b c d e f g _ i j k l n o p q := m in
  Build_t a b c d e f g v i j k l n o p q.
Definition set_df_resid v m :=
  let 'Build_t a b c d e f g h _ j k l n o p q := m in
  Build_t a b c d e f g h v j k l n o p q.
Definition set_data_weights v m :=
  let 'Build_t a b c d e f g h i _ k l n o p q := m in
  Build_t a b c d e f g h i (Some v) k l n o p q.
Definition set_scaletype v m :=
  let 'Build_t a b c d e f g h i j _ l n o p q := m in
  Build_t a b c d e f g h i j (Some v) l n o p q.
Definition set_weights v m :=
  let 'Build_t a b c d e f g h i j k _ n o p q := m in
  Build_t a b c d e f g h i j k (Some v) n o p q.
Definition set_scale v m :=
  let 'Build_t a b c d e f g h i j k l _ o p q := m in
  Build_t a b c d e f g h i j k l (Some v) o p q.
Definition set_mu v m :=
  let 'Build_t a b c d e f g h i j k l n _ p q := m in
  Build_t a b c d e f g h i j k l n (Some v) p q.
(** [self.model._results = self.model.results = self] *)
Definition set_results v m :=
  let 'Build_t a b c d e f g h i j k l n o _ _ := m in
  Build_t a b c d e f g h i j k l n o (Some v) (Some v).

(** Reading an attribute that may not exist yet. *)
Definition attr {A} (name : string) (o : option A) : result A :=
  match o with Some a => Ok a | None => Raise (AttributeError name) end.
End GLM.

(** The texts of the exceptions; where the source formats values into a
    text, the text is given without them. *)
Definition msg_size : string :=
  "Size of endog does not match the shape of exog".
Definition msg_data_weights : string :=
  "Data weights are only to be supplied forthe Binomial family".
Definition msg_nan : string :=
  "The first guess on the deviance function returned a nan.  This could be a boundary problem and should be reported.".
(** ["Scale %s with type %s not understood" % (value, type)], on the texts
    that [%s] gives for the value and for its type. *)
Definition msg_scale (value type : string) : string :=
  "Scale " ++ value ++ " with type " ++ type ++ " not understood".
(** The text of [type(z)] for an integer: an [int] within a machine word
    of 64 bits, a [long] beyond. *)
Definition int_type (z : Z) : string :=
  if (- 2 ^ 63 <=? z) && (z <? 2 ^ 63) then "<type 'int'>"
  else "<type 'long'>".
Definition msg_params : string :=
  "If the model has not been fit, then you must specify the params argument.".
Definition msg_unsized : string := "len() of unsized object".

(** [len(a)]: fails on a 0-d array. *)
Definition py_len {T} (a : ndarray T) : result nat :=
  match a with
  | Scalar _ => Raise (TypeError msg_unsized)
  | _ => shape0 a
  end.

(** The arguments of [GLM.fit], with their defaults. *)
Record FitArgs : Type := {
  maxiter : Z;
  method : string;
  tol : float;
  arg_data_weights : arr;
  arg_scale : pyval
}.

Definition default_tol : float := div one (of_Z 100000000).

Definition default_args : FitArgs :=
  {| maxiter := 100; method := "IRLS"; tol := default_tol;
     arg_data_weights := Scalar one; arg_scale := PyNone |}.

(** The local variables of [fit] that live across the loop;
    [wls_results] is bound by the first pass through the loop body. *)
Record Locals : Type := {
  loc_mu : arr;
  loc_eta : arr;
  wls_results : option WLS.results
}.

(** ** The class [GLM] *)

Section Engine.
(** The collaborators that are not in [glm.py]: the weighted least
    squares solver [WLS(endog, exog, weights).fit()], [np.linalg.pinv],
    [tools.rank] and the default family [families.Gaussian()]. *)
Variable WLS_fit : arr -> arr -> arr -> WLS.results.
Variable pinv : arr -> arr.
Variable rank : arr -> Z.
Variable default_family : Family.t.

Definition initialize : SE GLM.t unit :=
  (modify (GLM.set_history
             {| History.fittedvalues := [];
                History.params := [Scalar inf];
                History.deviance := [inf] |});;
   modify (GLM.set_iteration 0);;
   m <- get;
   modify (GLM.set_pinv_wexog (pinv (GLM.exog m)));;
   m <- get;
   ncp <- try (np_dot (GLM.pinv_wexog m) (np_transpose (GLM.pinv_wexog m)));
   modify (GLM.set_normalized_cov_params ncp);;
   m <- get;
   modify (GLM.set_df_model (rank (GLM.exog m) - 1));;
   n <- try (shape0 (GLM.exog m));
   modify (GLM.set_df_resid (Z.of_nat n - rank (GLM.exog m))))%se.

(** [GLM(endog, exog, family)].  The attributes [initialize] assigns
    do not exist before it runs; the values given to them here are
    overwritten or, when [initialize] raises, lost with the object. *)
Definition GLM_init (endog exog : arr) (family : option Family.t)
  : result GLM.t :=
  (do n <- shape0 endog;
   do k <- match exog with
           | Scalar _ => Raise (TypeError msg_unsized)
           | _ => shape0 exog
           end;
   if negb (Nat.eqb n k) then Raise (ValueError msg_size)
   else
     let family := match family with
                   | None => default_family
                   | Some f => f
                   end in
     let m := {| GLM.endog := endog; GLM.exog := exog;
                 GLM.family := family;
                 GLM.history := {| History.fittedvalues := [];
                                   History.params := [];
                                   History.deviance := [] |};
                 GLM.iteration := 0;
                 GLM.pinv_wexog := exog;
                 GLM.normalized_cov_params := exog;
                 GLM.df_model := 0; GLM.df_resid := 0;
                 GLM.data_weights := None; GLM.scaletype := None;
                 GLM.weights := None; GLM.scale := None;
                 GLM.mu := None; GLM._results := None;
                 GLM.results := None |} in
     match initialize m with
     | (m', Ok _) => Ok m'
     | (_, Raise e) => Raise e
     end)%res.

Definition _update_history (tmp_result : WLS.results) (mu : arr)
  : SE GLM.t unit :=
  (m <- get;
   modify (GLM.set_history
             {| History.fittedvalues := History.fittedvalues (GLM.history m);
                History.params :=
                  History.params (GLM.history m) ++ [WLS.params tmp_result];
                History.deviance := History.deviance (GLM.history m) |});;
   m <- get;
   modify (GLM.set_history
             {| History.fittedvalues :=
                  History.fittedvalues (GLM.history m)
                    ++ [WLS.fittedvalues tmp_result];
                History.params := History.params (GLM.history m);
                History.deviance := History.deviance (GLM.history m) |});;
   m <- get;
   modify (GLM.set_history
             {| History.fittedvalues := History.fittedvalues (GLM.history m);
                History.params := History.params (GLM.history m);
                History.deviance :=
                  History.deviance (GLM.history m)
                    ++ [Family.deviance (GLM.family m) (GLM.endog m) mu] |}))%se.

(** Pearson's chi-square divided by [df_resid]:
    [(np.power(resid, 2) / variance(mu)).sum() / df_resid]. *)
Definition pearson_scale (m : GLM.t) (mu : arr) : result arr :=
  (do resid <- np_sub (GLM.endog m) mu;
   do q <- np_div (np_square resid) (Family.variance (GLM.family m) mu);
   Ok (Scalar (div (np_sum q) (of_Z (GLM.df_resid m)))))%res.

Definition estimate_scale (m : GLM.t) (mu : arr) : result arr :=
  (do scaletype <- GLM.attr "scaletype" (GLM.scaletype m);
   if negb (truthy scaletype) then
     if fixed_dispersion (GLM.family m) then Ok (Scalar one)
     else pearson_scale m mu
   else
     match scaletype with
     | PyFloat f => Ok (Scalar f)
     | PyStr s =>
         if bool_decide (lower s = "x2") then pearson_scale m mu
         else if bool_decide (lower s = "dev") then
           Ok (Scalar (div (Family.deviance (GLM.family m) (GLM.endog m) mu)
                           (of_Z (GLM.df_resid m))))
         else Raise (ValueError (msg_scale s "<type 'str'>"))
     | PyInt z => Raise (ValueError (msg_scale (pretty z) (int_type z)))
     | PyNone => Raise (ValueError (msg_scale "None" "<type 'NoneType'>"))
     end)%res.

Definition predict (m : GLM.t) (exog : arr) (params : option arr)
    (linear : bool) : result arr :=
  match GLM._results m, params with
  | None, None => Raise (ValueError msg_params)
  | _, _ =>
      (do params <- match GLM._results m with
                    | Some _ =>
                        do r <- GLM.attr "results" (GLM.results m);
                        Ok (Results.obj_params r)
                    | None => GLM.attr "params" params
                    end;
       do eta <- np_dot exog params;
       if linear then Ok eta
       else Ok (Family.fitted (GLM.family m) eta))%res
  end.

(** [GLMResults.__init__], called on the model.  The base class stores
    [params], [normalized_cov_params] and [scale]; then the object is
    attached to the model as [_results] and [results], before the other
    attributes are copied from the model: when [model.endog.shape[0]],
    [model.mu] or [model.data_weights] raises, the unfinished object
    stays attached.  The attached object is the one under construction,
    so it gains each attribute as it is assigned; the cache starts
    empty. *)
Definition GLMResults_init (params normalized_cov_params scale : arr)
  : SE GLM.t Results.t :=
  (model <- get;
   let self :=
     {| Results.p_params := params;
        Results.p_normalized_cov_params := normalized_cov_params;
        Results.p_scale := scale;
        Results.p_family := GLM.family model;
        Results.p_endog := GLM.endog model;
        Results.p_nobs := None;
        Results.p_mu := None;
        Results.p_model_endog := GLM.endog model;
        Results.p_model_exog := GLM.exog model |} in
   modify (GLM.set_results (Results.Unfinished self));;
   n <- try (shape0 (GLM.endog model));
   let self := Results.set_nobs (Z.of_nat n) self in
   modify (GLM.set_results (Results.Unfinished self));;
   mu <- try (GLM.attr "mu" (GLM.mu model));
   let self := Results.set_mu mu self in
   modify (GLM.set_results (Results.Unfinished self));;
   dw <- try (GLM.attr "data_weights" (GLM.data_weights model));
   let self :=
     {| Results.params := params;
        Results.normalized_cov_params := normalized_cov_params;
        Results.scale := scale;
        Results.family := GLM.family model;
        Results._endog := GLM.endog model;
        Results.nobs := Z.of_nat n;
        Results.mu := mu;
        Results._data_weights := dw;
        Results.df_resid := GLM.df_resid model;
        Results.df_model := GLM.df_model model;
        Results.pinv_wexog := GLM.pinv_wexog model;
        Results.model_endog := GLM.endog model;
        Results.model_exog := GLM.exog model;
        Results._cache := ∅ |} in
   modify (GLM.set_results (Results.Built self));;
   ret self)%se.
(** *** [GLM.fit]

    The statements before the loop. [method] is not read. *)
Definition fit_prologue (a : FitArgs) : SE GLM.t Locals :=
  (m <- get;
   if negb (is_scalar (arg_data_weights a)) && negb (is_Binomial (GLM.family m))
   then raise (ValueError msg_data_weights)
   else
     modify (GLM.set_data_weights (arg_data_weights a));;
     m <- get;
     (match arg_data_weights a with
      | Scalar w =>
          if gtb w one then
            n <- try (shape0 (GLM.exog m));
            dw <- try (np_mul (Scalar w) (np_ones n));
            modify (GLM.set_data_weights dw)
          else ret tt
      | _ => ret tt
      end);;
     modify (GLM.set_scaletype (arg_scale a));;
     m <- get;
     (if is_Binomial (GLM.family m)
      then modify (GLM.set_endog (Family.initialize (GLM.family m) (GLM.endog m)))
      else ret tt);;
     m <- get;
     let mu := Family.starting_mu (GLM.family m) (GLM.endog m) in
     let eta := Family.predict (GLM.family m) mu in
     modify (GLM.set_iteration (GLM.iteration m + 1));;
     let dev := Family.deviance (GLM.family m) (GLM.endog m) mu in
     if isnan dev then raise (ValueError msg_nan)
     else
       m <- get;
       modify (GLM.set_history
                 {| History.fittedvalues := History.fittedvalues (GLM.history m);
                    History.params := History.params (GLM.history m);
                    History.deviance := History.deviance (GLM.history m) ++ [dev] |});;
       ret {| loc_mu := mu; loc_eta := eta; wls_results := None |})%se.

(** The loop condition: the deviance test is evaluated first, and
    [iteration < maxiter] only when it holds. *)
Definition loop_test (a : FitArgs) (m : GLM.t) : result bool :=
  (do d1 <- py_index (History.deviance (GLM.history m)) (GLM.iteration m);
   do d0 <- py_index (History.deviance (GLM.history m)) (GLM.iteration m - 1);
   if gtb (fabs (sub d1 d0)) (tol a) then Ok (GLM.iteration m <? maxiter a)
   else Ok false)%res.

(** One pass through the loop body. *)
Definition loop_body (a : FitArgs) (l : Locals) : SE GLM.t Locals :=
  (m <- get;
   w <- try (np_mul (arg_data_weights a) (Family.weights (GLM.family m) (loc_mu l)));
   modify (GLM.set_weights w);;
   m <- get;
   wlsendog <- try (do r <- np_sub (GLM.endog m) (loc_mu l);
                    do d <- np_mul (Family.link_deriv (GLM.family m) (loc_mu l)) r;
                    np_add (loc_eta l) d)%res;
   let wls := WLS_fit wlsendog (GLM.exog m) w in
   eta <- try (np_dot (GLM.exog m) (WLS.params wls));
   let mu := Family.fitted (GLM.family m) eta in
   _update_history wls mu;;
   m <- get;
   s <- try (estimate_scale m mu);
   modify (GLM.set_scale s);;
   m <- get;
   modify (GLM.set_iteration (GLM.iteration m + 1));;
   ret {| loc_mu := mu; loc_eta := eta; wls_results := Some wls |})%se.

(** The [while] loop, with a bound on the number of passes; [None]
    means the bound was too small. *)
Fixpoint irls (fuel : nat) (a : FitArgs) (l : Locals) (m : GLM.t)
  : option (GLM.t * result Locals) :=
  match loop_test a m with
  | Raise e => Some (m, Raise e)
  | Ok false => Some (m, Ok l)
  | Ok true =>
      match fuel with
      | O => None
      | S fuel' =>
          match loop_body a l m with
          | (m', Ok l') => irls fuel' a l' m'
          | (m', Raise e) => Some (m', Raise e)
          end
      end
  end.

(** The statements after the loop. *)
Definition fit_epilogue (l : Locals) : SE GLM.t Results.t :=
  (modify (GLM.set_mu (loc_mu l));;
   m <- get;
   match wls_results l with
   | None => raise (UnboundLocalError "wls_results")
   | Some wls =>
       s <- try (GLM.attr "scale" (GLM.scale m));
       GLMResults_init (WLS.params wls) (WLS.normalized_cov_params wls) s
   end)%se.

(** [fit]: the state the call leaves in the model, and the results
    object or the exception. *)
Definition fit (m : GLM.t) (a : FitArgs) : option (GLM.t * result Results.t) :=
  match fit_prologue a m with
  | (m1, Raise e) => Some (m1, Raise e)
  | (m1, Ok l) =>
      match irls (Z.to_nat (maxiter a - GLM.iteration m1)) a l m1 with
      | None => None
      | Some (m2, Raise e) => Some (m2, Raise e)
      | Some (m2, Ok l2) => Some (fit_epilogue l2 m2)
      end
  end.
End Engine.

(** ** The class [GLMResults]

    The formulas of the residual diagnostics, over any arithmetic. *)

Section Formulas.
Context {T : Type} `{Arith T}.

(** [data_weights * (endog - mu)] *)
Definition response_residuals (dw endog mu : ndarray T) : result (ndarray T) :=
  (do r <- np_sub endog mu; np_mul dw r)%res.

(** [np.sqrt(data_weights) * (endog - mu) / np.sqrt(variance(mu))],
    where [v] is [variance(mu)]. *)
Definition pearson_residuals (v dw endog mu : ndarray T) : result (ndarray T) :=
  (do r <- np_sub endog mu;
   do wr <- np_mul (np_sqrt dw) r;
   np_div wr (np_sqrt v))%res.

(** [chisq = (endog - mu)**2 / variance(mu); chisq *= data_weights;
    np.sum(chisq)] *)
Definition pearson_statistic (v dw endog mu : ndarray T) : result T :=
  (do r <- np_sub endog mu;
   do chisq <- np_div (np_square r) v;
   do chisq <- np_imul chisq dw;
   Ok (np_sum chisq))%res.

(** The sum of the elementwise squares of an array. *)
Definition sum_of_squares (a : ndarray T) : T := np_sum (np_square a).
End Formulas.

(** Modelled from the spec: the decorator [cache_readonly] of the module
      [decorators], which is not among the sources: a diagnostic is
      computed on its first access and the value is stored in [_cache];
      later accesses return the stored value.  An access that raises
      stores nothing. *)
Definition cache_readonly (name : string) (body : SE Results.t arr)
  : SE Results.t arr :=
  fun r =>
    match Results._cache r !! name with
    | Some v => (r, Ok v)
    | None =>
        match body r with
        | (r', Ok v) =>
            (Results.set_cache (<[name := v]> (Results._cache r')) r', Ok v)
        | (r', Raise e) => (r', Raise e)
        end
    end.

(** [aic] and [bic] as the documentation of the class states them, on the
    numbers they are computed from. *)
Definition aic_formula (llf : float) (df_model : Z) : float :=
  add (mul (of_Z (-2)) llf) (of_Z (2 * (df_model + 1))).

Definition bic_formula (log : float -> float) (deviance : float)
    (df_resid nobs : Z) : float :=
  sub deviance (mul (of_Z df_resid) (log (of_Z nobs))).

Section Diagnostics.
(** [WLS(...).fit()] and [np.log]. *)
Variable WLS_fit : arr -> arr -> arr -> WLS.results.
Variable np_log : float -> float.

Definition resid_response : SE Results.t arr :=
  cache_readonly "resid_response"
    (r <- get;
     try (response_residuals (Results._data_weights r) (Results._endog r)
            (Results.mu r)))%se.

Definition resid_pearson : SE Results.t arr :=
  cache_readonly "resid_pearson"
    (r <- get;
     try (pearson_residuals
            (Family.variance (Results.family r) (Results.mu r))
            (Results._data_weights r) (Results._endog r) (Results.mu r)))%se.

Definition resid_working : SE Results.t arr :=
  cache_readonly "resid_working"
    (rr <- resid_response;
     r <- get;
     val <- try (np_div rr (Family.link_deriv (Results.family r) (Results.mu r)));
     try (np_imul val (Results._data_weights r)))%se.

Definition resid_anscombe : SE Results.t arr :=
  cache_readonly "resid_anscombe"
    (r <- get;
     ret (Family.resid_anscombe (Results.family r) (Results._endog r)
            (Results.mu r)))%se.

Definition resid_deviance : SE Results.t arr :=
  cache_readonly "resid_deviance"
    (r <- get;
     ret (Family.resid_dev (Results.family r) (Results._endog r)
            (Results.mu r)))%se.

Definition pearson_chi2 : SE Results.t arr :=
  cache_readonly "pearson_chi2"
    (r <- get;
     chisqsum <- try (pearson_statistic
                        (Family.variance (Results.family r) (Results.mu r))
                        (Results._data_weights r) (Results._endog r)
                        (Results.mu r));
     ret (Scalar chisqsum))%se.

Definition fittedvalues : SE Results.t arr :=
  cache_readonly "fittedvalues" (r <- get; ret (Results.mu r))%se.

Definition null : SE Results.t arr :=
  cache_readonly "null"
    (r <- get;
     n <- try (py_len (Results._endog r));
     ret (WLS.fittedvalues
            (WLS_fit (Results._endog r) (np_ones_column n)
               (Results._data_weights r))))%se.

Definition deviance : SE Results.t arr :=
  cache_readonly "deviance"
    (r <- get;
     ret (Scalar (Family.deviance (Results.family r) (Results._endog r)
                    (Results.mu r))))%se.

Definition null_deviance : SE Results.t arr :=
  cache_readonly "null_deviance"
    (null <- null;
     r <- get;
     ret (Scalar (Family.deviance (Results.family r) (Results._endog r) null)))%se.

Definition llf : SE Results.t arr :=
  cache_readonly "llf"
    (r <- get;
     if bool_decide (Family.class (Results.family r) = NegativeBinomial) then
       eta <- try (np_dot (Results.model_exog r) (Results.params r));
       ret (Scalar (Family.loglike_fittedvalues (Results.family r)
                      (Results.model_endog r) eta))
     else
       ret (Scalar (Family.loglike (Results.family r) (Results._endog r)
                      (Results.mu r) (Results.scale r))))%se.

(** [-2 * self.llf + 2*(self.df_model+1)] *)
Definition aic : SE Results.t arr :=
  cache_readonly "aic"
    (llf <- llf;
     r <- get;
     try (do a <- np_mul (Scalar (of_Z (-2))) llf;
          np_add a (Scalar (of_Z (2 * (Results.df_model r + 1)))))%res)%se.

(** [self.deviance - self.df_resid*np.log(self.nobs)] *)
Definition bic : SE Results.t arr :=
  cache_readonly "bic"
    (deviance <- deviance;
     r <- get;
     try (np_sub deviance
            (Scalar (mul (of_Z (Results.df_resid r))
                       (np_log (of_Z (Results.nobs r)))))))%se.

(** The cached diagnostics, by name. *)
Inductive diagnostic : Type :=
| Resid_response | Resid_pearson | Resid_working | Resid_anscombe
| Resid_deviance | Pearson_chi2 | Fittedvalues | Null | Deviance
| Null_deviance | Llf | Aic | Bic.

Definition name (d : diagnostic) : string :=
  match d with
  | Resid_response => "resid_response"
  | Resid_pearson => "resid_pearson"
  | Resid_working => "resid_working"
  | Resid_anscombe => "resid_anscombe"
  | Resid_deviance => "resid_deviance"
  | Pearson_chi2 => "pearson_chi2"
  | Fittedvalues => "fittedvalues"
  | Null => "null"
  | Deviance => "deviance"
  | Null_deviance => "null_deviance"
  | Llf => "llf"
  | Aic => "aic"
  | Bic => "bic"
  end.

(** [getattr(results, name)] *)
Definition access (d : diagnostic) : SE Results.t arr :=
  match d with
  | Resid_response => resid_response
  | Resid_pearson => resid_pearson
  | Resid_working => resid_working
  | Resid_anscombe => resid_anscombe
  | Resid_deviance => resid_deviance
  | Pearson_chi2 => pearson_chi2
  | Fittedvalues => fittedvalues
  | Null => null
  | Deviance => deviance
  | Null_deviance => null_deviance
  | Llf => llf
  | Aic => aic
  | Bic => bic
  end.

(** The object after a sequence of accesses, whatever they returned. *)
Definition accesses (ds : list diagnostic) (r : Results.t) : Results.t :=
  fold_left (fun r d => fst (access d r)) ds r.

(** A results object as [GLMResults.__init__] leaves it. *)
Definition fresh (r : Results.t) : Results.t := Results.set_cache ∅ r.

(** Every stored value is the one a fresh object computes. *)
Definition cache_ok (r : Results.t) : Prop :=
  forall d v, Results._cache r !! name d = Some v ->
              snd (access d (fresh r)) = Ok v.

(** A computation that only fills the cache, consistently, and whose
    outcome does not depend on what the cache already holds. *)
Definition respects {A} (c : SE Results.t A) : Prop :=
  forall r, cache_ok r ->
            cache_ok (fst (c r)) /\ fresh (fst (c r)) = fresh r
            /\ snd (c r) = snd (c (fresh r)).
End Diagnostics.

(** ** Runnable collaborators

    Collaborators on which the engine can be evaluated.  They concern
    designs with a single regressor and a family with the identity link
    and constant variance, which need no transcendental function. *)

Definition flt (p q : Z) : float := div (of_Z p) (of_Z q).

(** [a.mean()] *)
Definition mean (a : arr) : float :=
  div (np_sum a) (of_Z (Z.of_nat (length (elements a)))).

Definition ones_like (a : arr) : arr := np_map (fun _ => one) a.

Definition or_nan (r : result arr) : arr :=
  match r with Ok a => a | Raise _ => Scalar nan end.

(** Modelled from the spec: the reshaping method of the Binomial class,
    which is not among the sources: a two-column array of (successes,
    failures) becomes the vector of proportions successes / (successes +
    failures); any other array is returned as it is. *)
Definition binomial_initialize (endog : arr) : arr :=
  match endog with
  | Matrix (((_ :: _ :: _) :: _) as rows) =>
      Vector (map (fun row => div (hd nan row) (sum_list row)) rows)
  | _ => endog
  end.

(** Modelled from the spec: a family object of class [c] with the identity
    link and the constant variance function, which is the Gaussian family
    when [c] is [Gaussian]: [starting_mu] is (endog + mean) / 2,
    [weights] is 1 / (variance * deriv^2), the deviance is the sum of
    squared residuals and [loglike] is the Gaussian log-likelihood
    without its normalising term.  For another class [c] it stands for an
    object of that class with these numeric methods: [glm.py] looks at
    the class only through [isinstance].  A method called on arrays that
    do not broadcast yields NaN. *)
Definition identity_family (c : FamilyClass) : Family.t :=
  let deviance endog mu := np_sum (np_square (or_nan (np_sub endog mu))) in
  {| Family.class := c;
     Family.variance := ones_like;
     Family.link_deriv := ones_like;
     Family.starting_mu := fun endog =>
       np_map (fun y => div (add y (mean endog)) (of_Z 2)) endog;
     Family.predict := fun mu => mu;
     Family.fitted := fun eta => eta;
     Family.weights := fun mu =>
       or_nan (do d <- np_mul (np_square (ones_like mu)) (ones_like mu);
               np_div (Scalar one) d)%res;
     Family.deviance := deviance;
     Family.initialize := binomial_initialize;
     Family.loglike := fun endog mu scale =>
       div (deviance endog mu) (mul (of_Z (-2)) (np_sum scale));
     Family.loglike_fittedvalues := fun endog eta =>
       div (deviance endog eta) (of_Z (-2));
     Family.resid_anscombe := fun endog mu => or_nan (np_sub endog mu);
     Family.resid_dev := fun endog mu => or_nan (np_sub endog mu) |}.

(** Modelled from the spec: the weighted least squares solver [WLS] of
    the module [regression], which is not among the sources, on a design
    with one column [x]: the coefficient is sum(w x y) / sum(w x x), the
    fitted values are its multiples of [x] and the normalized covariance
    is 1 / sum(w x x). *)
Definition column_WLS (endog exog weights : arr) : WLS.results :=
  let x := Vector (elements exog) in
  let wx := or_nan (np_mul weights x) in
  let den := np_sum (or_nan (np_mul wx x)) in
  let beta := div (np_sum (or_nan (np_mul wx endog))) den in
  {| WLS.params := Vector [beta];
     WLS.fittedvalues := np_map (mul beta) x;
     WLS.normalized_cov_params := Matrix [[div one den]] |}.

(** Modelled from the spec: the pseudo-inverse and the rank that
    [np.linalg.pinv] and [tools.rank] compute, on a design with one
    column [x]: [x^T / (x^T x)], and 1 unless [x] is zero. *)
Definition column_pinv (exog : arr) : arr :=
  let x := elements exog in
  let den := sum_list (map (fun v => mul v v) x) in
  Matrix [map (fun v => div v den) x].

Definition column_rank (exog : arr) : Z :=
  if existsb (fun v => negb (SFeqb v zero)) (elements exog) then 1 else 0.

Definition new_model (endog exog : arr) (family : option Family.t) : result GLM.t :=
  GLM_init column_pinv column_rank (identity_family Gaussian) endog exog family.

Definition run_fit (m : GLM.t) (a : FitArgs) : option (GLM.t * result Results.t) :=
  fit column_WLS m a.

Definition vec (l : list Z) : arr := Vector (map of_Z l).
Definition col (l : list Z) : arr := Matrix (map (fun z => [of_Z z]) l).

Definition with_args (maxiter : Z) (method : string) (tol : float)
    (data_weights : arr) (scale : pyval) : FitArgs :=
  {| maxiter := maxiter; method := method; tol := tol;
     arg_data_weights := data_weights; arg_scale := scale |}.


(** The exceptions that the array operations, the attribute reads and the
    statements of [fit] other than its first can raise. *)
Inductive engine_error : exn -> Prop :=
| ee_broadcast : engine_error (ValueError msg_broadcast)
| ee_aligned : engine_error (ValueError msg_aligned)
| ee_scale value type : engine_error (ValueError (msg_scale value type))
| ee_nan : engine_error (ValueError msg_nan)
| ee_index : engine_error (IndexError msg_index)
| ee_attribute name : engine_error (AttributeError name)
| ee_unbound name : engine_error (UnboundLocalError name).

(** What the loop of [fit] leaves alone. *)
Definition frame (m m' : GLM.t) : Prop :=
  GLM.endog m' = GLM.endog m /\ GLM.exog m' = GLM.exog m
  /\ GLM.family m' = GLM.family m /\ GLM.df_resid m' = GLM.df_resid m
  /\ GLM.df_model m' = GLM.df_model m /\ GLM.scaletype m' = GLM.scaletype m
  /\ GLM.data_weights m' = GLM.data_weights m
  /\ GLM._results m' = GLM._results m /\ GLM.results m' = GLM.results m.

Definition pos_all (vs : list R) : Prop := Forall (fun v => (0 < v)%R) vs.
Definition nonneg_all (ws : list R) : Prop := Forall (fun w => (0 <= w)%R) ws.

(** Decidable equality on the data, to read off the outcome of a run. *)
#[export] Instance float_eq_dec : EqDecision float.
Proof. unfold float. solve_decision. Defined.

#[export] Instance ndarray_eq_dec {T} `{EqDecision T} : EqDecision (ndarray T).
Proof. solve_decision. Defined.

#[export] Instance exn_eq_dec : EqDecision exn.
Proof. solve_decision. Defined.

#[export] Instance pyval_eq_dec : EqDecision pyval.
Proof. solve_decision. Defined.

Definition is_ok {A} (r : result A) : bool :=
  match r with Ok _ => true | Raise _ => false end.

(** The exception of an outcome, if it is one. *)
Definition raised {A} (r : result A) : option exn :=
  match r with Ok _ => None | Raise e => Some e end.

(** Build a model, call [fit] on it, and test the model before, the model
    after and the outcome. *)
Definition scenario (endog exog : arr) (family : option Family.t)
    (a : FitArgs) (p : GLM.t -> GLM.t -> result Results.t -> bool) : bool :=
  match new_model endog exog family with
  | Ok m =>
      match run_fit m a with
      | Some (m', out) => p m m' out
      | None => false
      end
  | Raise _ => false
  end.

Definition tiny_tol : float := flt 1 (10 ^ 300).
Definition huge : float := binary_normalize prec emax 1 600 false.

(** The deviance history has one entry more than the counter says: the
    loop condition then compares its last two entries. *)
Definition hist_sync (m : GLM.t) : Prop :=
  Z.of_nat (length (History.deviance (GLM.history m))) = GLM.iteration m + 1.

(** The values of [scale] that [estimate_scale] accepts: a false value,
    a float, and the strings that read x2 or dev in lower case. *)
Definition scale_understood (v : pyval) : bool :=
  match v with
  | PyNone | PyFloat _ => true
  | PyStr s =>
      bool_decide (s = "") || bool_decide (lower s = "x2")
      || bool_decide (lower s = "dev")
  | PyInt z => z =? 0
  end.

(** The [endog] that [fit] works on. *)
Definition fitted_endog (m : GLM.t) : arr :=
  if is_Binomial (GLM.family m)
  then Family.initialize (GLM.family m) (GLM.endog m)
  else GLM.endog m.

(** [GLM.loglike] hands its arguments to [family.loglike]; here with
    the arguments [endog], [mu] and [scale]. *)
Definition loglike (m : GLM.t) (endog mu scale : arr) : float :=
  Family.loglike (GLM.family m) endog mu scale.

(** * Properties *)

(** ** The loop of [fit] ends *)

Section EngineFacts.
Variable WLS_fit : arr -> arr -> arr -> WLS.results.

Lemma loop_test_true a m :
  loop_test a m = Ok true -> GLM.iteration m < maxiter a.
Proof.
  unfold loop_test, rbind.
  destruct (py_index _ (GLM.iteration m)); [|discriminate].
  destruct (py_index _ (GLM.iteration m - 1)); [|discriminate].
  destruct (gtb _ _); [|discriminate].
  intros [= Hlt]. now apply Z.ltb_lt.
Qed.

Lemma loop_body_ok a l m m' l' :
  loop_body WLS_fit a l m = (m', Ok l') ->
  GLM.iteration m' = GLM.iteration m + 1
  /\ GLM.endog m' = GLM.endog m /\ GLM.exog m' = GLM.exog m
  /\ GLM.family m' = GLM.family m /\ GLM.scaletype m' = GLM.scaletype m
  /\ GLM.data_weights m' = GLM.data_weights m
  /\ GLM._results m' = GLM._results m /\ GLM.results m' = GLM.results m
  /\ (exists wls, wls_results l' = Some wls)
  /\ exists s, estimate_scale m (loc_mu l') = Ok s /\ GLM.scale m' = Some s.
Proof.
  destruct m. unfold loop_body, bind, get, try, modify, ret, _update_history.
  cbn.
  destruct (np_mul _ _); [|discriminate]. cbn.
  destruct (np_sub _ _); [|discriminate]. cbn.
  destruct (np_mul _ _); [|discriminate]. cbn.
  destruct (np_add _ _); [|discriminate]. cbn.
  destruct (np_dot _ _); [|discriminate]. cbn.
  match goal with |- context [estimate_scale ?m ?mu] =>
    destruct (estimate_scale m mu) eqn:Hs end; [|discriminate].
  cbn. intros [= <- <-]. cbn. repeat split; eauto.
Qed.

Lemma irls_enough fuel : forall a l m,
  (maxiter a - GLM.iteration m <= Z.of_nat fuel) ->
  exists out, irls WLS_fit fuel a l m = Some out.
Proof.
  induction fuel as [|fuel IH]; intros a l m Hfuel; simpl.
  - destruct (loop_test a m) as [[|]|] eqn:Ht; eauto.
    apply loop_test_true in Ht. lia.
  - destruct (loop_test a m) as [[|]|] eqn:Ht; eauto.
    destruct (loop_body WLS_fit a l m) as [m' [l'|e]] eqn:Hb; eauto.
    apply loop_body_ok in Hb as (Hit & _). apply IH. lia.
Qed.

(** [fit] always returns: the bound given to the loop is enough. *)
Lemma fit_terminates m a : exists out, fit WLS_fit m a = Some out.
Proof.
  unfold fit. destruct (fit_prologue a m) as [m1 [l|e]]; eauto.
  destruct (irls_enough (Z.to_nat (maxiter a - GLM.iteration m1)) a l m1)
    as [[m2 [l2|e]] ->]; eauto.
  lia.
Qed.
End EngineFacts.

(** ** The cache of a results object *)

Section DiagnosticsFacts.
Variable WLS_fit : arr -> arr -> arr -> WLS.results.
Variable np_log : float -> float.

Local Abbreviation access := (access WLS_fit np_log).
Local Abbreviation cache_ok := (cache_ok WLS_fit np_log).
Local Abbreviation respects := (respects WLS_fit np_log).

Lemma name_inj d1 d2 : name d1 = name d2 -> d1 = d2.
Proof. destruct d1, d2; intros [=]; reflexivity. Qed.

Lemma fresh_set_cache c r : fresh (Results.set_cache c r) = fresh r.
Proof. reflexivity. Qed.

Lemma cache_ok_fresh r : cache_ok (fresh r).
Proof. intros d v. cbn. rewrite lookup_empty. discriminate. Qed.

Lemma respects_ret {A} (a : A) : respects (ret a).
Proof. intros r Hr. cbn. auto. Qed.

Lemma respects_try {A} (x : result A) : respects (try x).
Proof. intros r Hr. cbn. auto. Qed.

Lemma respects_bind {A B} (c : SE Results.t A) (k : A -> SE Results.t B) :
  respects c -> (forall a, respects (k a)) -> respects (bind c k).
Proof.
  intros Hc Hk r Hr. unfold bind.
  destruct (Hc r Hr) as (Hok & Hfr & Hval).
  destruct (Hc (fresh r) (cache_ok_fresh r)) as (Hok' & Hfr' & _).
  destruct (c r) as [r1 x1]. destruct (c (fresh r)) as [r2 x2].
  cbn in *. subst x2. destruct x1 as [a|e]; cbn; [|auto].
  destruct (Hk a r1 Hok) as (Hok1 & Hfr1 & Hval1).
  destruct (Hk a r2 Hok') as (_ & _ & Hval2).
  rewrite Hfr1, Hfr, Hval1, Hval2, Hfr, Hfr'. auto.
Qed.

(** A body that reads the stored attributes only. *)
Lemma respects_read {A} (f : Results.t -> result A) :
  (forall r, f (fresh r) = f r) -> respects (bind get (fun r => try (f r))).
Proof. intros Hf r Hr. cbn. rewrite Hf. auto. Qed.

Lemma respects_cached d body :
  (forall r, access d r = cache_readonly (name d) body r) ->
  respects body -> respects (cache_readonly (name d) body).
Proof.
  intros Hacc Hbody r Hr.
  assert (Hl : forall x, cache_readonly (name d) body r = x ->
               cache_ok (fst x) /\ fresh (fst x) = fresh r
               /\ snd x = snd (cache_readonly (name d) body (fresh r)));
    [|now apply Hl].
  unfold cache_readonly at 1.
  destruct (Results._cache r !! name d) as [v|] eqn:Hhit.
  - intros x <-. cbn. split; [exact Hr|]. split; [reflexivity|].
    specialize (Hr d v Hhit). rewrite Hacc in Hr. now rewrite Hr.
  - destruct (Hbody r Hr) as (Hok & Hfr & Hval).
    assert (Hrhs : snd (cache_readonly (name d) body (fresh r))
                   = snd (body (fresh r))).
    { unfold cache_readonly. cbn. rewrite lookup_empty.
      destruct (body (fresh r)) as [r2 [v2|e2]]; reflexivity. }
    rewrite Hrhs.
    destruct (body r) as [r1 [v|e]]; intros x <-; cbn in *; [|auto].
    split; [|auto].
    intros d2 v2. rewrite fresh_set_cache. cbn.
    destruct (decide (name d = name d2)) as [Heq|Hne].
    + apply name_inj in Heq as <-. rewrite lookup_insert_eq.
      intros [= <-]. now rewrite Hfr, Hacc, Hrhs.
    + rewrite lookup_insert_ne by exact Hne. apply Hok.
Qed.

Lemma respects_readonly {A} (c : SE Results.t A) :
  (forall r, fst (c r) = r) -> (forall r, snd (c (fresh r)) = snd (c r)) ->
  respects c.
Proof. intros Hst Hval r Hr. rewrite Hst, Hval. auto. Qed.

Ltac readonly :=
  apply respects_readonly; intros r; destruct r;
  unfold bind, get, try, ret; cbn; repeat case_match; reflexivity.

Lemma respects_resid_response : respects (access Resid_response).
Proof. apply (respects_cached Resid_response); [reflexivity|]. readonly. Qed.

Lemma respects_null : respects (access Null).
Proof. apply (respects_cached Null); [reflexivity|]. readonly. Qed.

Lemma respects_deviance : respects (access Deviance).
Proof. apply (respects_cached Deviance); [reflexivity|]. readonly. Qed.

Lemma respects_llf : respects (access Llf).
Proof. apply (respects_cached Llf); [reflexivity|]. readonly. Qed.

Lemma respects_access d : respects (access d).
Proof.
  destruct d;
    try (match goal with |- respects (access ?d) =>
           apply (respects_cached d); [reflexivity|readonly] end).
  - apply (respects_cached Resid_working); [reflexivity|].
    apply respects_bind; [apply respects_resid_response|]. intros rr. readonly.
  - apply (respects_cached Null_deviance); [reflexivity|].
    apply respects_bind; [apply respects_null|]. intros v. readonly.
  - apply (respects_cached Aic); [reflexivity|].
    apply respects_bind; [apply respects_llf|]. intros v. readonly.
  - apply (respects_cached Bic); [reflexivity|].
    apply respects_bind; [apply respects_deviance|]. intros v. readonly.
Qed.

(** Accesses keep the cache consistent and touch nothing else. *)
Lemma accesses_ok ds : forall r,
  cache_ok r ->
  cache_ok (accesses WLS_fit np_log ds r)
  /\ fresh (accesses WLS_fit np_log ds r) = fresh r.
Proof.
  induction ds as [|d ds IH]; intros r Hr; [cbn; auto|].
  change (accesses WLS_fit np_log (d :: ds) r)
    with (accesses WLS_fit np_log ds (fst (access d r))).
  destruct (respects_access d r Hr) as (Hok & Hfr & _).
  destruct (IH _ Hok) as (Hok' & Hfr'). rewrite Hfr', Hfr. auto.
Qed.

(** What an access returns is what it returns on the fresh object. *)
Lemma access_value d ds r :
  snd (access d (accesses WLS_fit np_log ds (fresh r)))
  = snd (access d (fresh r)).
Proof.
  destruct (accesses_ok ds (fresh r) (cache_ok_fresh r)) as (Hok & Hfr).
  destruct (respects_access d _ Hok) as (_ & _ & ->). now rewrite Hfr.
Qed.

Lemma accesses_fields ds r :
  let s := accesses WLS_fit np_log ds (fresh r) in
  Results._data_weights s = Results._data_weights r
  /\ Results._endog s = Results._endog r /\ Results.mu s = Results.mu r
  /\ Results.df_model s = Results.df_model r
  /\ Results.df_resid s = Results.df_resid r
  /\ Results.nobs s = Results.nobs r
  /\ Results.family s = Results.family r.
Proof.
  intros s. destruct (accesses_ok ds (fresh r) (cache_ok_fresh r)) as (_ & Hfr).
  fold s in Hfr. destruct s, r. cbn in Hfr. injection Hfr as -> -> -> -> -> -> -> -> -> -> -> -> ->.
  cbn. auto 10.
Qed.

Lemma cached_fresh name body r :
  snd (cache_readonly name body (fresh r)) = snd (body (fresh r)).
Proof.
  unfold cache_readonly. cbn. rewrite lookup_empty.
  destruct (body (fresh r)) as [r2 [v2|e2]]; reflexivity.
Qed.

Lemma llf_fresh r :
  snd (llf (fresh r))
  = if bool_decide (Family.class (Results.family r) = NegativeBinomial)
    then (do eta <- np_dot (Results.model_exog r) (Results.params r);
          Ok (Scalar (Family.loglike_fittedvalues (Results.family r)
                        (Results.model_endog r) eta)))%res
    else Ok (Scalar (Family.loglike (Results.family r) (Results._endog r)
                       (Results.mu r) (Results.scale r))).
Proof.
  unfold llf. rewrite cached_fresh. destruct r. unfold bind, get, try, ret.
  cbn. repeat case_match; reflexivity.
Qed.

Lemma deviance_fresh r :
  snd (deviance (fresh r))
  = Ok (Scalar (Family.deviance (Results.family r) (Results._endog r)
                  (Results.mu r))).
Proof. unfold deviance. rewrite cached_fresh. now destruct r. Qed.

Lemma aic_fresh r :
  snd (aic (fresh r))
  = (do l <- snd (llf (fresh r));
     do a <- np_mul (Scalar (of_Z (-2))) l;
     np_add a (Scalar (of_Z (2 * (Results.df_model r + 1)))))%res.
Proof.
  unfold aic. rewrite cached_fresh. unfold bind at 1.
  destruct (respects_llf (fresh r) (cache_ok_fresh r)) as (_ & Hfr & _).
  change (access Llf) with llf in Hfr.
  destruct (llf (fresh r)) as [r1 [l|e]]; [|reflexivity].
  cbn in Hfr. destruct r1, r. cbn in Hfr.
  injection Hfr as -> -> -> -> -> -> -> -> -> -> -> -> ->.
  unfold bind, get, try. cbn. reflexivity.
Qed.

Lemma bic_fresh r :
  snd (bic np_log (fresh r))
  = (do d <- snd (deviance (fresh r));
     np_sub d (Scalar (mul (of_Z (Results.df_resid r))
                         (np_log (of_Z (Results.nobs r))))))%res.
Proof.
  unfold bic. rewrite cached_fresh. unfold bind at 1.
  destruct (respects_deviance (fresh r) (cache_ok_fresh r)) as (_ & Hfr & _).
  change (access Deviance) with deviance in Hfr.
  destruct (deviance (fresh r)) as [r1 [l|e]]; [|reflexivity].
  cbn in Hfr. destruct r1, r. cbn in Hfr.
  injection Hfr as -> -> -> -> -> -> -> -> -> -> -> -> ->.
  unfold bind, get, try. cbn. reflexivity.
Qed.

(** C5. On every results object, whatever diagnostics were read before,
    [aic] is [-2 * llf + 2 * (df_model + 1)] and [bic] is
    [deviance - df_resid * log(nobs)], computed from the values that
    [llf] and [deviance] return and the stored [df_model], [df_resid]
    and [nobs]; when [llf] raises, so does [aic]. *)
Theorem aic_bic_identities (r : Results.t) (ds : list diagnostic) :
  let s := accesses WLS_fit np_log ds (fresh r) in
  match snd (llf s) with
  | Ok (Scalar l) =>
      snd (aic s) = Ok (Scalar (aic_formula l (Results.df_model s)))
  | Ok _ => False
  | Raise e => snd (aic s) = Raise e
  end
  /\ match snd (deviance s) with
     | Ok (Scalar d) =>
         snd (bic np_log s)
         = Ok (Scalar (bic_formula np_log d (Results.df_resid s)
                         (Results.nobs s)))
     | _ => False
     end.
Proof.
  intros s. destruct (accesses_fields ds r) as (_ & _ & _ & Hm & Hr & Hn & _).
  fold s in Hm, Hr, Hn. rewrite Hm, Hr, Hn.
  unfold s.
  pose proof (access_value Llf ds r) as H1.
  pose proof (access_value Aic ds r) as H2.
  pose proof (access_value Deviance ds r) as H3.
  pose proof (access_value Bic ds r) as H4.
  change (access Llf) with llf in H1. change (access Aic) with aic in H2.
  change (access Deviance) with deviance in H3.
  change (access Bic) with (bic np_log) in H4.
  rewrite H1, H2, H3, H4.
  rewrite aic_fresh, bic_fresh, deviance_fresh, llf_fresh. split.
  - case_bool_decide; [|reflexivity].
    destruct (np_dot _ _); reflexivity.
  - reflexivity.
Qed.

(** The first half of C6: [resid_response] returns
    [data_weights * (endog - mu)] on the stored arrays. *)
Lemma resid_response_value (r : Results.t) (ds : list diagnostic) :
  let s := accesses WLS_fit np_log ds (fresh r) in
  snd (resid_response s)
  = response_residuals (Results._data_weights s) (Results._endog s)
      (Results.mu s).
Proof.
  intros s. destruct (accesses_fields ds r) as (Hw & He & Hm & _).
  fold s in Hw, He, Hm. rewrite Hw, He, Hm. unfold s.
  pose proof (access_value Resid_response ds r) as H1.
  change (access Resid_response) with resid_response in H1. rewrite H1.
  unfold resid_response. rewrite cached_fresh. now destruct r.
Qed.

Lemma resid_pearson_value (r : Results.t) (ds : list diagnostic) :
  let s := accesses WLS_fit np_log ds (fresh r) in
  snd (resid_pearson s)
  = pearson_residuals (Family.variance (Results.family s) (Results.mu s))
      (Results._data_weights s) (Results._endog s) (Results.mu s).
Proof.
  intros s. destruct (accesses_fields ds r) as (Hw & He & Hm & _ & _ & _ & Hf).
  fold s in Hw, He, Hm, Hf. rewrite Hw, He, Hm, Hf. unfold s.
  pose proof (access_value Resid_pearson ds r) as H1.
  change (access Resid_pearson) with resid_pearson in H1. rewrite H1.
  unfold resid_pearson. rewrite cached_fresh. now destruct r.
Qed.

Lemma pearson_chi2_value (r : Results.t) (ds : list diagnostic) :
  let s := accesses WLS_fit np_log ds (fresh r) in
  snd (pearson_chi2 s)
  = (do c <- pearson_statistic
               (Family.variance (Results.family s) (Results.mu s))
               (Results._data_weights s) (Results._endog s) (Results.mu s);
     Ok (Scalar c))%res.
Proof.
  intros s. destruct (accesses_fields ds r) as (Hw & He & Hm & _ & _ & _ & Hf).
  fold s in Hw, He, Hm, Hf. rewrite Hw, He, Hm, Hf. unfold s.
  pose proof (access_value Pearson_chi2 ds r) as H1.
  change (access Pearson_chi2) with pearson_chi2 in H1. rewrite H1.
  unfold pearson_chi2. rewrite cached_fresh. destruct r.
  unfold bind, get, try, ret. cbn. now destruct (pearson_statistic _ _ _ _).
Qed.
End DiagnosticsFacts.

(** ** Reading off a run *)

Lemma scenario_inv endog exog family a p :
  scenario endog exog family a p = true ->
  exists m, new_model endog exog family = Ok m
    /\ exists m' out, run_fit m a = Some (m', out) /\ p m m' out = true.
Proof.
  unfold scenario. destruct (new_model endog exog family) as [m|]; [|discriminate].
  destruct (run_fit m a) as [[m' out]|] eqn:Hfit; [|discriminate].
  intros Hp. exists m. split; [reflexivity|]. exists m', out. auto.
Qed.

(** ** The Pearson identity on the real numbers *)

Section RealIdentity.
Open Scope R_scope.

Lemma mapM_Some {A B} (f : A -> B) (l : list A) :
  mapM (fun x => Some (f x)) l = Some (map f l).
Proof. induction l as [|x l IH]; cbn; [reflexivity|]. now rewrite IH. Qed.

Lemma np_binop_vectors {T} `{Arith T} (op : T -> T -> T) (xs ys : list T) :
  length xs = length ys ->
  np_binop op (Vector xs) (Vector ys)
  = Ok (Vector (map (fun p => op (fst p) (snd p)) (zip xs ys))).
Proof.
  intros Hlen. unfold np_binop, broadcast.
  rewrite Hlen, Nat.eqb_refl.
  now rewrite (mapM_Some (fun p => op (fst p) (snd p))).
Qed.

Lemma pearson_pointwise (w r v : R) :
  0 <= w -> 0 < v ->
  (R_sqrt.sqrt w * r / R_sqrt.sqrt v) * (R_sqrt.sqrt w * r / R_sqrt.sqrt v)
  = r * r / v * w.
Proof.
  intros Hw Hv.
  assert (Hsv : R_sqrt.sqrt v <> 0)
    by (apply Rgt_not_eq, sqrt_lt_R0; exact Hv).
  rewrite <- (sqrt_sqrt w Hw) at 3. rewrite <- (sqrt_sqrt v) at 3 by lra.
  field. exact Hsv.
Qed.

Lemma length_paired {A B C} (f : A * B -> C) (xs : list A) (ys : list B) :
  length xs = length ys -> length (map f (zip xs ys)) = length xs.
Proof.
  revert ys. induction xs as [|x xs IH]; intros [|y ys] [=]; cbn; auto.
Qed.

Lemma squares_scalar (w : R) : forall rs vs : list R,
  length vs = length rs -> 0 <= w -> pos_all vs ->
  map (fun x => x * x)
    (map (fun p => fst p / snd p)
       (zip (map (Rmult (R_sqrt.sqrt w)) rs) (map R_sqrt.sqrt vs)))
  = map (fun x => x * w)
      (map (fun p => fst p / snd p) (zip (map (fun x => x * x) rs) vs)).
Proof.
  induction rs as [|r rs IH]; intros [|v vs] [=] Hw Hv; cbn; [reflexivity|].
  inversion Hv; subst. f_equal; [|now apply IH].
  now apply pearson_pointwise.
Qed.

Lemma squares_vector : forall rs vs ws : list R,
  length vs = length rs -> length ws = length rs ->
  nonneg_all ws -> pos_all vs ->
  map (fun x => x * x)
    (map (fun p => fst p / snd p)
       (zip (map (fun p => fst p * snd p) (zip (map R_sqrt.sqrt ws) rs))
          (map R_sqrt.sqrt vs)))
  = map (fun p => fst p * snd p)
      (zip (map (fun p => fst p / snd p) (zip (map (fun x => x * x) rs) vs))
         ws).
Proof.
  induction rs as [|r rs IH]; intros [|v vs] [|w ws] [=] [=] Hw Hv; cbn;
    [reflexivity|].
  inversion Hv; inversion Hw; subst. f_equal; [|now apply IH].
  now apply pearson_pointwise.
Qed.

(** On the real numbers, with non-negative weights and a positive
    variance, the squares of the Pearson residuals sum to the Pearson
    statistic. *)
Lemma pearson_identity_real (w : ndarray R) (ys ms vs : list R) :
  length ms = length ys -> length vs = length ys ->
  match w with
  | Scalar _ => True
  | Vector ws => length ws = length ys
  | Matrix _ => False
  end ->
  nonneg_all (elements w) -> pos_all vs ->
  exists rp c,
    pearson_residuals (Vector vs) w (Vector ys) (Vector ms) = Ok rp
    /\ pearson_statistic (Vector vs) w (Vector ys) (Vector ms) = Ok c
    /\ sum_of_squares rp = c.
Proof.
  intros Hms Hvs Hw Hnn Hpos.
  unfold pearson_residuals, pearson_statistic, sum_of_squares.
  unfold np_sub. rewrite np_binop_vectors by (symmetry; exact Hms).
  set (rs := map _ (zip ys ms)).
  assert (Hrs : length rs = length ys)
    by (apply length_paired; symmetry; exact Hms).
  destruct w as [w|ws|]; [| |contradiction].
  - inversion Hnn as [|? ? Hw0 _]; subst.
    eexists _, _. cbn [rbind np_sqrt np_square np_map np_mul np_binop].
    unfold np_div, np_imul, np_mul.
    rewrite !np_binop_vectors by (rewrite ?length_map; congruence).
    cbn [rbind np_binop same_shape np_map].
    rewrite !length_map, Nat.eqb_refl.
    repeat split. cbn [np_sum np_square np_map elements]. f_equal.
    apply (squares_scalar w rs vs); [congruence|exact Hw0|exact Hpos].
  - eexists _, _. cbn [rbind np_sqrt np_square np_map].
    unfold np_div, np_imul, np_mul.
    rewrite !np_binop_vectors
      by (rewrite ?length_paired, ?length_map; rewrite ?length_map; congruence).
    cbn [rbind np_map same_shape].
    rewrite !np_binop_vectors
      by (rewrite ?length_paired, ?length_map; rewrite ?length_map; congruence).
    cbn [rbind same_shape].
    rewrite (length_paired _ _ ws)
      by (rewrite length_paired; rewrite ?length_map; congruence).
    rewrite Nat.eqb_refl.
    repeat split. cbn [np_sum np_square np_map elements]. f_equal.
    apply (squares_vector rs vs ws); [congruence|congruence|exact Hnn|exact Hpos].
Qed.
End RealIdentity.

(** ** The residual identities (C6) *)

(** C6, as amended.  Whatever diagnostics were read before,
    [resid_response] is [data_weights * (endog - mu)], [resid_pearson] is
    [sqrt(data_weights) * (endog - mu) / sqrt(variance(mu))] and
    [pearson_chi2] is the sum of [(endog - mu)^2 / variance(mu) *
    data_weights], each on the stored arrays; and the squares of the
    second sum to the third on the real numbers, for one-dimensional
    arrays of equal length, non-negative weights (a scalar or an array of
    that length) and a positive variance. *)
Theorem residual_identities :
  (forall WLS_fit np_log (r : Results.t) (ds : list diagnostic),
     let s := accesses WLS_fit np_log ds (fresh r) in
     let v := Family.variance (Results.family s) (Results.mu s) in
     snd (resid_response s)
     = response_residuals (Results._data_weights s) (Results._endog s)
         (Results.mu s)
     /\ snd (resid_pearson s)
        = pearson_residuals v (Results._data_weights s) (Results._endog s)
            (Results.mu s)
     /\ snd (pearson_chi2 s)
        = (do c <- pearson_statistic v (Results._data_weights s)
                     (Results._endog s) (Results.mu s);
           Ok (Scalar c))%res)
  /\ (forall (w : ndarray R) (ys ms vs : list R),
        length ms = length ys -> length vs = length ys ->
        match w with
        | Scalar _ => True
        | Vector ws => length ws = length ys
        | Matrix _ => False
        end ->
        nonneg_all (elements w) -> pos_all vs ->
        exists rp c,
          pearson_residuals (Vector vs) w (Vector ys) (Vector ms) = Ok rp
          /\ pearson_statistic (Vector vs) w (Vector ys) (Vector ms) = Ok c
          /\ sum_of_squares rp = c).
Proof.
  split.
  - intros WLS_fit np_log r ds s v. subst s v. split; [|split].
    + apply resid_response_value.
    + apply resid_pearson_value.
    + apply pearson_chi2_value.
  - exact pearson_identity_real.
Qed.

Lemma residual_identities_witness :
  exists rp c,
    pearson_residuals (Vector [1%R]) (Scalar 2%R) (Vector [3%R]) (Vector [1%R])
    = Ok rp
    /\ pearson_statistic (Vector [1%R]) (Scalar 2%R) (Vector [3%R])
         (Vector [1%R]) = Ok c
    /\ sum_of_squares rp = c.
Proof.
  destruct residual_identities as [_ Hreal].
  apply (Hreal (Scalar 2%R) [3%R] [1%R] [1%R]).
  - reflexivity.
  - reflexivity.
  - exact I.
  - repeat constructor. cbn. lra.
  - repeat constructor. lra.
Defined.

(** C6 as stated fails in binary64: fitting endog [0, 1, 2] on a constant
    with data_weights=2.0 converges (the counter stops at 3 of 100) with
    mu = [1, 1, 1]; the squares of resid_pearson sum to
    4.000000000000001 and pearson_chi2 is 4.0. *)
Lemma pearson_sum_rounding :
  exists m, new_model (vec [0; 1; 2]) (col [1; 1; 1]) None = Ok m
    /\ exists m' r rp c,
         run_fit m (with_args 100 "IRLS" default_tol (Scalar (of_Z 2)) PyNone)
         = Some (m', Ok r)
         /\ GLM.iteration m' = 3
         /\ snd (resid_pearson r) = Ok rp
         /\ snd (pearson_chi2 r) = Ok (Scalar c)
         /\ c = of_Z 4
         /\ sum_of_squares rp <> c.
Proof.
  destruct (scenario_inv (vec [0; 1; 2]) (col [1; 1; 1]) None
              (with_args 100 "IRLS" default_tol (Scalar (of_Z 2)) PyNone)
              (fun _ m' out =>
                 match out with
                 | Ok r =>
                     match snd (resid_pearson r), snd (pearson_chi2 r) with
                     | Ok rp, Ok (Scalar c) =>
                         bool_decide (GLM.iteration m' = 3)
                         && bool_decide (c = of_Z 4)
                         && negb (bool_decide (sum_of_squares rp = c))
                     | _, _ => false
                     end
                 | Raise _ => false
                 end))
    as (m & Hm & m' & out & Hfit & Hp); [vm_compute; reflexivity|].
  exists m. split; [exact Hm|].
  destruct out as [r|]; [|discriminate].
  destruct (snd (resid_pearson r)) as [rp|] eqn:Hrp; [|discriminate].
  destruct (snd (pearson_chi2 r)) as [[c| |]|] eqn:Hchi; try discriminate.
  apply andb_prop in Hp as [Hp Hne]. apply andb_prop in Hp as [Hit Hc].
  apply bool_decide_eq_true in Hit, Hc. apply negb_true_iff in Hne.
  apply bool_decide_eq_false in Hne.
  exists m', r, rp, c. repeat (split; [assumption || reflexivity|]). exact Hne.
Qed.

(** ** Which exceptions the engine raises *)

Lemma engine_error_not_data_weights e :
  engine_error e -> e <> ValueError msg_data_weights.
Proof. intros [] [=]. Qed.

Section ArrayErrors.
Context {T : Type} `{Arith T}.

Lemma np_binop_error (op : T -> T -> T) a b e :
  np_binop op a b = Raise e -> engine_error e.
Proof.
  destruct a, b; cbn; try discriminate;
    match goal with |- context [lift (?f <$> ?x)] => destruct x end; cbn;
    intros [= <-]; constructor.
Qed.

Lemma dot_list_error (xs ys : list T) e :
  dot_list xs ys = Raise e -> engine_error e.
Proof.
  unfold dot_list. destruct (Nat.eqb _ _); intros [= <-]. constructor.
Qed.

Lemma mapR_error {A B} (f : A -> result B) (l : list A) e :
  (forall x e, f x = Raise e -> engine_error e) ->
  mapR f l = Raise e -> engine_error e.
Proof.
  intros Hf. induction l as [|x l IH]; cbn; [discriminate|].
  destruct (f x) eqn:Hx; cbn; [|intros [= <-]; eauto].
  destruct (mapR f l); cbn; [discriminate|]. intros [= <-]. auto.
Qed.

Lemma np_dot_error (a b : ndarray T) e :
  np_dot a b = Raise e -> engine_error e.
Proof.
  destruct a as [x|xs|r1], b as [y|ys|r2]; cbn -[np_mul];
    try (apply np_binop_error).
  - destruct (dot_list xs ys) eqn:Hd; cbn; [discriminate|].
    intros [= <-]. eapply dot_list_error, Hd.
  - destruct (mapR _ _) eqn:Hm; cbn; [discriminate|]. intros [= <-].
    eapply mapR_error, Hm. intros x e'. apply dot_list_error.
  - destruct (mapR _ _) eqn:Hm; cbn; [discriminate|]. intros [= <-].
    eapply mapR_error, Hm. intros x e'. apply dot_list_error.
  - destruct (mapR _ _) eqn:Hm; cbn; [discriminate|]. intros [= <-].
    eapply mapR_error, Hm. intros x e' Hx.
    eapply mapR_error, Hx. intros y e''. apply dot_list_error.
Qed.

Lemma shape0_error (a : ndarray T) e : shape0 a = Raise e -> engine_error e.
Proof. destruct a; cbn; intros [= <-]. constructor. Qed.
End ArrayErrors.

Lemma py_index_error {A} (l : list A) i e :
  py_index l i = Raise e -> engine_error e.
Proof.
  unfold py_index. repeat case_match; intros [= <-]; constructor.
Qed.

Lemma py_index_error_test a m e : loop_test a m = Raise e -> engine_error e.
Proof.
  unfold loop_test.
  destruct (py_index _ (GLM.iteration m)) eqn:H1; cbn;
    [|intros [= <-]; eapply py_index_error, H1].
  destruct (py_index _ (GLM.iteration m - 1)) eqn:H2; cbn;
    [|intros [= <-]; eapply py_index_error, H2].
  destruct (gtb _ _); discriminate.
Qed.

Lemma attr_error {A} name (o : option A) e :
  GLM.attr name o = Raise e -> engine_error e.
Proof. destruct o; cbn; intros [= <-]. constructor. Qed.

(** ** The statements of [fit] *)

Section FitFacts.
Variable WLS_fit : arr -> arr -> arr -> WLS.results.

Lemma frame_refl m : frame m m.
Proof. unfold frame. auto 10. Qed.

Lemma frame_trans m1 m2 m3 : frame m1 m2 -> frame m2 m3 -> frame m1 m3.
Proof. unfold frame. intuition congruence. Qed.

Lemma estimate_scale_frame m m' mu :
  frame m m' -> estimate_scale m' mu = estimate_scale m mu.
Proof.
  intros (He & _ & Hf & Hr & _ & Hs & _).
  unfold estimate_scale, pearson_scale. now rewrite He, Hf, Hr, Hs.
Qed.

Lemma estimate_scale_error m mu e :
  estimate_scale m mu = Raise e -> engine_error e.
Proof.
  unfold estimate_scale, pearson_scale.
  destruct (GLM.attr _ _) eqn:Ha; cbn; [|intros [= <-]; eapply attr_error, Ha].
  assert (Hp : forall r : result arr,
             r = (do resid <- np_sub (GLM.endog m) mu;
                  do q <- np_div (np_square resid)
                            (Family.variance (GLM.family m) mu);
                  Ok (Scalar (div (np_sum q) (of_Z (GLM.df_resid m)))))%res ->
             r = Raise e -> engine_error e).
  { intros r ->. destruct (np_sub _ _) eqn:H1; cbn;
      [|intros [= <-]; eapply np_binop_error, H1].
    destruct (np_div _ _) eqn:H2; cbn; [discriminate|].
    intros [= <-]. eapply np_binop_error, H2. }
  repeat case_match; try discriminate; try (intros [= <-]; constructor);
    eapply Hp; reflexivity.
Qed.

Lemma loop_body_frame a l m m' out :
  loop_body WLS_fit a l m = (m', out) ->
  frame m m' /\ (forall e, out = Raise e -> engine_error e).
Proof.
  destruct m.
  unfold loop_body, bind, get, try, modify, ret, _update_history, rbind.
  cbn. intros Hb.
  repeat case_match; simplify_eq;
    (split; [unfold frame; cbn; auto 10|]); intros ? Hout;
    try discriminate Hout; injection Hout as <-;
    first [ eapply (np_binop_error (T:=float)); eassumption
          | eapply (np_dot_error (T:=float)); eassumption
          | eapply estimate_scale_error; eassumption ].
Qed.

(** The loop keeps the frame, raises only engine errors, and when it
    ends normally either made no pass, or made one whose solution and
    scale estimate are the ones it leaves. *)
Lemma irls_spec fuel a : forall l m m' out,
  irls WLS_fit fuel a l m = Some (m', out) ->
  frame m m'
  /\ match out with
     | Raise e => engine_error e
     | Ok l' =>
         loop_test a m' = Ok false
         /\ ((l' = l /\ m' = m)
             \/ (GLM.iteration m < maxiter a
                 /\ GLM.iteration m < GLM.iteration m'
                 /\ exists wls s,
                   wls_results l' = Some wls
                   /\ estimate_scale m' (loc_mu l') = Ok s
                   /\ GLM.scale m' = Some s))
     end.
Proof.
  induction fuel as [|fuel IH]; intros l m m' out; simpl.
  - destruct (loop_test a m) as [[|]|e] eqn:Ht; intros [= <- <-].
    + split; [apply frame_refl|]. auto.
    + split; [apply frame_refl|]. eapply py_index_error_test, Ht.
  - destruct (loop_test a m) as [[|]|e] eqn:Ht.
    + destruct (loop_body WLS_fit a l m) as [m1 [l1|e1]] eqn:Hb.
      * intros Hrec. destruct (loop_body_frame _ _ _ _ _ Hb) as (Hf1 & _).
        apply loop_body_ok in Hb as (Hit & _ & _ & _ & _ & _ & _ & _ & (wls & Hw) & s & Hs & Hsc).
        apply IH in Hrec as (Hf2 & Hout).
        split; [eapply frame_trans; eauto|].
        destruct out as [l'|e']; [|exact Hout].
        destruct Hout as (Hstop & [[-> ->]|(Hlt & Hlt' & wls' & s' & Hw' & Hs' & Hsc')]).
        -- split; [exact Hstop|]. right.
           apply loop_test_true in Ht.
           split; [exact Ht|]. split; [lia|].
           exists wls, s. rewrite (estimate_scale_frame m m1) by exact Hf1. auto.
        -- split; [exact Hstop|]. right.
           apply loop_test_true in Ht.
           split; [exact Ht|]. split; [lia|]. eauto.
      * intros [= <- <-]. destruct (loop_body_frame _ _ _ _ _ Hb) as (Hf1 & He).
        split; [exact Hf1|]. now apply He.
    + intros [= <- <-]. split; [apply frame_refl|]. auto.
    + intros [= <- <-]. split; [apply frame_refl|].
      eapply py_index_error_test, Ht.
Qed.

(** The statements before the loop. *)
Lemma fit_prologue_spec a m m1 out :
  fit_prologue a m = (m1, out) ->
  let fam := GLM.family m in
  let dw := arg_data_weights a in
  (GLM.exog m1 = GLM.exog m /\ GLM.family m1 = fam
   /\ GLM._results m1 = GLM._results m /\ GLM.results m1 = GLM.results m)
  /\ (is_Binomial fam = false -> GLM.endog m1 = GLM.endog m)
  /\ (is_Binomial fam = true -> is_scalar (GLM.exog m) = false ->
      GLM.endog m1 = Family.initialize fam (GLM.endog m))
  /\ (is_scalar dw = false -> is_Binomial fam = true ->
      GLM.data_weights m1 = Some dw)
  /\ match out with
     | Raise e =>
         (e = ValueError msg_data_weights /\ m1 = m
          /\ is_scalar dw = false /\ is_Binomial fam = false)
         \/ (engine_error e
             /\ (is_scalar dw = true \/ is_Binomial fam = true))
     | Ok l =>
         (is_scalar dw = true \/ is_Binomial fam = true)
         /\ wls_results l = None
         /\ GLM.iteration m1 = GLM.iteration m + 1
         /\ GLM.scaletype m1 = Some (arg_scale a)
         /\ loc_mu l = Family.starting_mu fam (GLM.endog m1)
         /\ isnan (Family.deviance fam (GLM.endog m1) (loc_mu l)) = false
         /\ History.deviance (GLM.history m1)
            = (History.deviance (GLM.history m)
                 ++ [Family.deviance fam (GLM.endog m1) (loc_mu l)])%list
     end.
Proof.
  destruct m. unfold fit_prologue, bind, get, try, modify, ret, raise.
  cbn. intros Hp.
  destruct (is_scalar (arg_data_weights a)) eqn:Hs;
    destruct (is_Binomial family) eqn:Hb; cbn in Hp;
    repeat case_match; simplify_eq; cbn in *; try congruence;
    repeat match goal with
           | |- _ /\ _ => split
           | |- _ -> _ => intro
           end;
    try discriminate; try reflexivity; try congruence;
    try (destruct exog; discriminate);
    try (left; repeat split; reflexivity);
    try (right; split; [|auto]);
    try match goal with
        | |- engine_error _ =>
            first [ constructor
                  | eapply (np_binop_error (T:=float)); eassumption
                  | eapply (shape0_error (T:=float)); eassumption ]
        end;
    auto.
Qed.

(** The statements after the loop. *)
Lemma fit_epilogue_spec l m m' out :
  fit_epilogue l m = (m', out) ->
  GLM.endog m' = GLM.endog m /\ GLM.exog m' = GLM.exog m
  /\ GLM.data_weights m' = GLM.data_weights m
  /\ GLM.iteration m' = GLM.iteration m
  /\ match out with
     | Raise e =>
         engine_error e
         /\ (wls_results l = None -> e = UnboundLocalError "wls_results")
     | Ok r =>
         GLM._results m' = Some (Results.Built r)
         /\ GLM.results m' = Some (Results.Built r)
         /\ exists wls s,
             wls_results l = Some wls /\ GLM.scale m = Some s
             /\ Results.scale r = s /\ Results.params r = WLS.params wls
             /\ Results.mu r = loc_mu l
     end.
Proof.
  destruct m.
  unfold fit_epilogue, GLMResults_init, bind, get, try, modify, ret, raise,
    rbind, GLM.attr.
  cbn. intros He.
  repeat case_match; simplify_eq; cbn in *; simplify_eq;
    repeat (split; [reflexivity|]);
    try (do 2 eexists; repeat split; reflexivity);
    (split;
     [ first [ constructor
             | eapply (shape0_error (T:=float)); eassumption ]
     | first [ discriminate | reflexivity ] ]).
Qed.
End FitFacts.

(** ** The claims about [fit], [estimate_scale] and [predict] *)

Section Claims.
Variable WLS_fit : arr -> arr -> arr -> WLS.results.

Lemma is_Binomial_true f : is_Binomial f = true <-> Family.class f = Binomial.
Proof. apply bool_decide_eq_true. Qed.

Lemma is_Binomial_false f : is_Binomial f = false <-> Family.class f <> Binomial.
Proof. apply bool_decide_eq_false. Qed.

(** What a call of [fit] leaves and returns, statement by statement. *)
Lemma fit_inv m a m' out :
  fit WLS_fit m a = Some (m', out) ->
  (exists e, fit_prologue a m = (m', Raise e) /\ out = Raise e)
  \/ exists m1 l,
      fit_prologue a m = (m1, Ok l)
      /\ ((exists e, irls WLS_fit (Z.to_nat (maxiter a - GLM.iteration m1)) a l m1
                     = Some (m', Raise e) /\ out = Raise e)
          \/ exists m2 l2,
              irls WLS_fit (Z.to_nat (maxiter a - GLM.iteration m1)) a l m1
              = Some (m2, Ok l2)
              /\ fit_epilogue l2 m2 = (m', out)).
Proof.
  unfold fit. destruct (fit_prologue a m) as [m1 [l|e]] eqn:Hp.
  - destruct (irls _ _ _ _ _) as [[m2 [l2|e]]|] eqn:Hl; [| |discriminate].
    + intros [= Hep]. right. exists m1, l. split; [reflexivity|].
      right. exists m2, l2. split; [exact Hl|].
      destruct (fit_epilogue l2 m2). now simplify_eq.
    + intros [= <- <-]. right. exists m1, l. split; [reflexivity|].
      left. eauto.
  - intros [= <- <-]. left. eauto.
Qed.

(** C1, as amended.  [fit] does not read its [method] argument: two
    calls that differ only in [method] leave the same model and return
    the same outcome. *)
Theorem fit_ignores_method (m : GLM.t) (maxiter : Z) (method1 method2 : string)
    (tol : float) (data_weights : arr) (scale : pyval) :
  fit WLS_fit m (with_args maxiter method1 tol data_weights scale)
  = fit WLS_fit m (with_args maxiter method2 tol data_weights scale).
Proof.
  set (a1 := with_args maxiter method1 tol data_weights scale).
  set (a2 := with_args maxiter method2 tol data_weights scale).
  assert (Hloop : forall fuel l m0,
            irls WLS_fit fuel a1 l m0 = irls WLS_fit fuel a2 l m0).
  { induction fuel as [|fuel IH]; intros l m0; simpl.
    - reflexivity.
    - change (loop_test a2 m0) with (loop_test a1 m0).
      change (loop_body WLS_fit a2 l m0) with (loop_body WLS_fit a1 l m0).
      destruct (loop_test a1 m0) as [[|]|]; try reflexivity.
      destruct (loop_body WLS_fit a1 l m0) as [m1 [l1|e]]; [apply IH|reflexivity]. }
  unfold fit. change (fit_prologue a2 m) with (fit_prologue a1 m).
  destruct (fit_prologue a1 m) as [m1 [l|e]]; [|reflexivity].
  now rewrite Hloop.
Qed.

(** With [maxiter] at most one more than the iteration counter, as
    [maxiter=1] is on a new model, [fit] makes no pass through the loop
    and never returns a results object. *)
Lemma fit_without_pass m a m' out :
  maxiter a <= GLM.iteration m + 1 ->
  fit WLS_fit m a = Some (m', out) -> exists e, out = Raise e.
Proof.
  intros Hmax Hfit.
  destruct (fit_inv _ _ _ _ Hfit) as [(e & _ & ->)|(m1 & l & Hp & Hrest)];
    [eauto|].
  destruct Hrest as [(e & _ & ->)|(m2 & l2 & Hl & He)]; [eauto|].
  apply fit_prologue_spec in Hp as (_ & _ & _ & _ & _ & Hw & Hit & _).
  apply irls_spec in Hl as (_ & _ & [[-> ->]|(Hlt & _)]); [|lia].
  apply fit_epilogue_spec in He as (_ & _ & _ & _ & Hout).
  destruct out as [r|e]; [|eauto].
  destruct Hout as (_ & _ & wls & s & Hw' & _). congruence.
Qed.

(** C8.  With a [data_weights] argument that is not a scalar, [fit] on
    a model whose family is not Binomial raises the data-weights error
    and leaves the model as it was; on a Binomial model the call does
    not raise that error, whatever else happens, and the weights are
    stored in the model. *)
Theorem data_weights_validation (m : GLM.t) (a : FitArgs) :
  is_scalar (arg_data_weights a) = false ->
  (Family.class (GLM.family m) <> Binomial ->
   fit WLS_fit m a = Some (m, Raise (ValueError msg_data_weights)))
  /\ (Family.class (GLM.family m) = Binomial ->
      exists m' out,
        fit WLS_fit m a = Some (m', out)
        /\ out <> Raise (ValueError msg_data_weights)
        /\ GLM.data_weights m' = Some (arg_data_weights a)).
Proof.
  intros Hs. split.
  - intros Hb. apply is_Binomial_false in Hb.
    unfold fit, fit_prologue, bind, get, raise. cbn. now rewrite Hs, Hb.
  - intros Hb. apply is_Binomial_true in Hb.
    destruct (fit_terminates WLS_fit m a) as [[m' out] Hfit].
    exists m', out. split; [exact Hfit|].
    destruct (fit_inv _ _ _ _ Hfit) as [(e & Hp & ->)|(m1 & l & Hp & Hrest)].
    + apply fit_prologue_spec in Hp as (_ & _ & _ & Hdw & He).
      split; [|auto].
      destruct He as [(_ & _ & _ & Hnb)|(He & _)]; [congruence|].
      intros [= ->]. now apply engine_error_not_data_weights in He.
    + apply fit_prologue_spec in Hp as (_ & _ & _ & Hdw & _).
      specialize (Hdw Hs Hb).
      destruct Hrest as [(e & Hl & ->)|(m2 & l2 & Hl & He)].
      * apply irls_spec in Hl as (Hf & He). split.
        -- intros [= ->]. now apply engine_error_not_data_weights in He.
        -- destruct Hf as (_ & _ & _ & _ & _ & _ & -> & _). exact Hdw.
      * apply irls_spec in Hl as (Hf & _).
        apply fit_epilogue_spec in He as (_ & _ & Hd & _ & Hout). split.
        -- destruct out as [r|e]; [discriminate|]. destruct Hout as (He & _).
           intros [= ->]. now apply engine_error_not_data_weights in He.
        -- rewrite Hd. destruct Hf as (_ & _ & _ & _ & _ & _ & -> & _).
           exact Hdw.
Qed.

(** C9, as amended.  [fit] leaves [exog] as it was, and [endog] too
    unless the family is Binomial; on a Binomial model [endog] becomes
    [family.initialize(endog)] (the weights being broadcast first
    needs [exog] to have a dimension). *)
Theorem fit_endog_exog (m : GLM.t) (a : FitArgs) (m' : GLM.t)
    (out : result Results.t) :
  fit WLS_fit m a = Some (m', out) ->
  GLM.exog m' = GLM.exog m
  /\ (Family.class (GLM.family m) <> Binomial -> GLM.endog m' = GLM.endog m)
  /\ (Family.class (GLM.family m) = Binomial ->
      is_scalar (GLM.exog m) = false ->
      GLM.endog m' = Family.initialize (GLM.family m) (GLM.endog m)).
Proof.
  intros Hfit.
  assert (Hgoal : forall m1 o,
            fit_prologue a m = (m1, o) ->
            GLM.endog m' = GLM.endog m1 -> GLM.exog m' = GLM.exog m1 ->
            GLM.exog m' = GLM.exog m
            /\ (Family.class (GLM.family m) <> Binomial ->
                GLM.endog m' = GLM.endog m)
            /\ (Family.class (GLM.family m) = Binomial ->
                is_scalar (GLM.exog m) = false ->
                GLM.endog m' = Family.initialize (GLM.family m) (GLM.endog m))).
  { intros m1 o Hp He Hx.
    apply fit_prologue_spec in Hp as ((Hx1 & _) & Hnb & Hb & _).
    rewrite He, Hx. split; [exact Hx1|]. split.
    - intros Hc. now apply Hnb, is_Binomial_false.
    - intros Hc. now apply Hb, is_Binomial_true. }
  destruct (fit_inv _ _ _ _ Hfit) as [(e & Hp & ->)|(m1 & l & Hp & Hrest)].
  - now apply (Hgoal _ _ Hp).
  - destruct Hrest as [(e & Hl & ->)|(m2 & l2 & Hl & He)].
    + apply irls_spec in Hl as ((He1 & Hx1 & _) & _).
      now apply (Hgoal _ _ Hp).
    + apply irls_spec in Hl as ((He1 & Hx1 & _) & _).
      apply fit_epilogue_spec in He as (He2 & Hx2 & _).
      apply (Hgoal _ _ Hp); congruence.
Qed.

(** C3, as amended.  When the family is Binomial or Poisson, the scale of
    every results object that [fit] returns is exactly 1 if the [scale]
    argument is unset (or another false value), and is f if the [scale]
    argument is a float f other than 0.0 and -0.0. *)
Theorem fixed_dispersion_scale (m : GLM.t) (a : FitArgs) (m' : GLM.t)
    (r : Results.t) :
  fixed_dispersion (GLM.family m) = true ->
  fit WLS_fit m a = Some (m', Ok r) ->
  (truthy (arg_scale a) = false -> Results.scale r = Scalar one)
  /\ (forall f, arg_scale a = PyFloat f -> truthy (PyFloat f) = true ->
                Results.scale r = Scalar f).
Proof.
  intros Hfd Hfit.
  destruct (fit_inv _ _ _ _ Hfit) as [(e & _ & [=])|(m1 & l & Hp & Hrest)].
  destruct Hrest as [(e & _ & [=])|(m2 & l2 & Hl & He)].
  apply fit_prologue_spec in Hp
    as ((_ & Hfam & _) & _ & _ & _ & _ & Hw & _ & Hst & _).
  apply irls_spec in Hl as (Hf & _ & Hpass).
  apply fit_epilogue_spec in He
    as (_ & _ & _ & _ & _ & _ & wls & s & Hw2 & Hs2 & Hrs & _).
  destruct Hpass as [[-> ->]|(_ & _ & wls' & s' & _ & Hes & Hsc)]; [congruence|].
  assert (s' = s) as -> by congruence.
  revert Hes. unfold estimate_scale.
  destruct Hf as (_ & _ & -> & _ & _ & -> & _).
  rewrite Hst, Hfam. cbn [GLM.attr rbind]. intros Hes. split.
  - intros Hfalse. rewrite Hfalse, Hfd in Hes.
    change (Ok (Scalar one) = Ok s) in Hes. congruence.
  - intros f Hf Ht. rewrite Hf in Hes. rewrite Ht in Hes.
    change (Ok (Scalar f) = Ok s) in Hes. congruence.
Qed.

(** [x - inf] is [-inf] for every number [x] other than [+inf]. *)
Lemma fabs_sub_inf (d : float) :
  isnan d = false -> d <> inf -> fabs (sub d inf) = inf.
Proof.
  destruct d as [s|[|]| |s mx e]; cbn; try reflexivity; try discriminate.
  intros _ Hne. now contradiction Hne.
Qed.

End Claims.

Section Construction.
Variable pinv : arr -> arr.
Variable rank : arr -> Z.
Variable default_family : Family.t.

Lemma initialize_spec m m' :
  initialize pinv rank m = (m', Ok tt) ->
  GLM.history m'
  = {| History.fittedvalues := []; History.params := [Scalar inf];
       History.deviance := [inf] |}
  /\ GLM.iteration m' = 0 /\ GLM._results m' = GLM._results m
  /\ GLM.endog m' = GLM.endog m /\ GLM.exog m' = GLM.exog m
  /\ GLM.family m' = GLM.family m.
Proof.
  destruct m. unfold initialize, bind, get, try, modify, ret. cbn.
  intros Hi. repeat case_match; simplify_eq. cbn. auto 10.
Qed.

Lemma GLM_init_spec endog exog family m :
  GLM_init pinv rank default_family endog exog family = Ok m ->
  GLM.history m
  = {| History.fittedvalues := []; History.params := [Scalar inf];
       History.deviance := [inf] |}
  /\ GLM.iteration m = 0 /\ GLM._results m = None
  /\ GLM.endog m = endog /\ GLM.exog m = exog
  /\ is_scalar exog = false.
Proof.
  unfold GLM_init, rbind. intros Hi. repeat case_match; simplify_eq;
    match goal with H : initialize _ _ _ = (_, Ok ?u) |- _ =>
      destruct u; apply initialize_spec in H
        as (Hh & Hit & Hr & He & Hx & _) end;
    cbn in *; repeat split; assumption.
Qed.

(** C7, as amended.  A new model has the history
    [deviance = [inf]], [params = [inf]] and the counter 0; and when
    the statements of [fit] before the loop end normally on it (the
    initial deviance is then not NaN), the initial deviance is not
    [+inf], [tol] is below [+inf] and [maxiter] is above 1, the first
    test of the loop condition holds: the body is entered. *)
Theorem sentinel_first_test (endog exog : arr) (family : option Family.t)
    (m : GLM.t) (a : FitArgs) (m1 : GLM.t) (l : Locals) :
  GLM_init pinv rank default_family endog exog family = Ok m ->
  (History.deviance (GLM.history m) = [inf]
   /\ History.params (GLM.history m) = [Scalar inf]
   /\ GLM.iteration m = 0)
  /\ (fit_prologue a m = (m1, Ok l) ->
      Family.deviance (GLM.family m1) (GLM.endog m1) (loc_mu l) <> inf ->
      gtb inf (tol a) = true ->
      1 < maxiter a ->
      isnan (Family.deviance (GLM.family m1) (GLM.endog m1) (loc_mu l)) = false
      /\ loop_test a m1 = Ok true).
Proof.
  intros Hinit. apply GLM_init_spec in Hinit as (Hh & Hit & _).
  split; [rewrite Hh; auto|].
  intros Hp Hne Htol Hmax.
  apply fit_prologue_spec in Hp
    as ((_ & Hfam & _) & _ & _ & _ & _ & _ & Hit1 & _ & Hmu & Hnan & Hdev).
  rewrite Hfam in *. split; [exact Hnan|].
  unfold loop_test. rewrite Hdev, Hh, Hit1, Hit.
  change (py_index _ (0 + 1)) with (Ok (Family.deviance (GLM.family m) (GLM.endog m1) (loc_mu l))).
  change (py_index _ (0 + 1 - 1)) with (Ok inf). cbn [rbind].
  rewrite fabs_sub_inf by assumption. rewrite Htol.
  f_equal. now apply Z.ltb_lt.
Qed.
End Construction.

(** ** Runs of the engine *)

Ltac run_scenario p :=
  match goal with
  | |- exists m, new_model ?endog ?exog ?family = Ok m /\ _ =>
      let m := fresh "m" in
      let Hm := fresh "Hm" in
      let m' := fresh "m'" in
      let out := fresh "out" in
      let Hfit := fresh "Hfit" in
      let Hp := fresh "Hp" in
      match goal with
      | |- context [run_fit _ ?a] =>
          destruct (scenario_inv endog exog family a p)
            as (m & Hm & m' & out & Hfit & Hp);
          [vm_compute; reflexivity|];
          exists m; split; [exact Hm|]
      end
  end.

Ltac read_off :=
  repeat match goal with
         | H : (_ && _)%bool = true |- _ => apply andb_prop in H as [? ?]
         | H : bool_decide _ = true |- _ => apply bool_decide_eq_true in H
         | H : negb _ = true |- _ => apply negb_true_iff in H
         | H : bool_decide _ = false |- _ => apply bool_decide_eq_false in H
         end.

(** C1 as stated fails: [fit(method="newton")] on endog [0, 1, 2] and a
    constant regressor runs the loop (the counter ends at 3) and returns
    a results object with params [1.0]. *)
Lemma fit_newton_returns_results :
  exists m, new_model (vec [0; 1; 2]) (col [1; 1; 1]) None = Ok m
    /\ exists m' r,
         run_fit m (with_args 100 "newton" default_tol (Scalar one) PyNone)
         = Some (m', Ok r)
         /\ GLM.iteration m' = 3
         /\ Results.params r = vec [1].
Proof.
  run_scenario (fun (_ m' : GLM.t) (out : result Results.t) =>
                  match out with
                  | Ok r => bool_decide (GLM.iteration m' = 3)
                            && bool_decide (Results.params r = vec [1])
                  | Raise _ => false
                  end).
  destruct out as [r|]; [|discriminate]. read_off. eauto.
Qed.

(** C2 fails on the code: [fit(maxiter=1, tol=1e-300)] on a new model
    whose initial deviance is 0.5 makes no pass through the loop and
    raises, [wls_results] being unbound, instead of returning a results
    object. *)
Theorem fit_maxiter_one_unbound :
  exists m, new_model (vec [0; 1; 2]) (col [1; 1; 1]) None = Ok m
    /\ exists m' out,
         run_fit m (with_args 1 "IRLS" tiny_tol (Scalar one) PyNone)
         = Some (m', out)
         /\ raised out = Some (UnboundLocalError "wls_results")
         /\ GLM.iteration m' = 1
         /\ History.deviance (GLM.history m') = [inf; flt 1 2].
Proof.
  run_scenario (fun (_ m' : GLM.t) (out : result Results.t) =>
                  bool_decide (raised out = Some (UnboundLocalError "wls_results"))
                  && bool_decide (GLM.iteration m' = 1)
                  && bool_decide (History.deviance (GLM.history m')
                                  = [inf; flt 1 2])).
  read_off. eauto 10.
Qed.

(** C3 as stated fails: a fit of a model of the Poisson class with
    [scale=2.0] returns the scale 2.0, which is not 1. *)
Lemma poisson_scale_two :
  exists m, new_model (vec [0; 1; 2]) (col [1; 1; 1])
              (Some (identity_family Poisson)) = Ok m
    /\ exists m' r,
         run_fit m (with_args 100 "IRLS" default_tol (Scalar one)
                      (PyFloat (of_Z 2)))
         = Some (m', Ok r)
         /\ Results.scale r = Scalar (of_Z 2)
         /\ Results.scale r <> Scalar one.
Proof.
  run_scenario (fun (_ _ : GLM.t) (out : result Results.t) =>
                  match out with
                  | Ok r => bool_decide (Results.scale r = Scalar (of_Z 2))
                            && negb (bool_decide (Results.scale r = Scalar one))
                  | Raise _ => false
                  end).
  destruct out as [r|]; [|discriminate]. read_off. eauto.
Qed.


(** C9 as stated fails: on a model of the Binomial class whose endog is
    the two-column array [[3, 1], [1, 1], [2, 2]], [fit] returns a
    results object and leaves endog = [0.75, 0.5, 0.5]. *)
Lemma binomial_fit_replaces_endog :
  exists m, new_model (Matrix [[of_Z 3; of_Z 1]; [of_Z 1; of_Z 1];
                               [of_Z 2; of_Z 2]])
              (col [1; 1; 1]) (Some (identity_family Binomial)) = Ok m
    /\ exists m' r,
         run_fit m default_args = Some (m', Ok r)
         /\ GLM.endog m' = Vector [flt 3 4; flt 1 2; flt 1 2]
         /\ GLM.endog m' <> GLM.endog m.
Proof.
  run_scenario (fun (m m' : GLM.t) (out : result Results.t) =>
                  is_ok out
                  && bool_decide (GLM.endog m'
                                  = Vector [flt 3 4; flt 1 2; flt 1 2])
                  && negb (bool_decide (GLM.endog m' = GLM.endog m))).
  read_off. destruct out as [r|]; [|discriminate]. eauto.
Qed.

(** C7 as stated fails: on endog [2^600, 0, 0] the initial deviance
    overflows to [+inf], which is not NaN; the first test of the loop
    condition compares [inf - inf] with [tol] and fails, the body is not
    entered although [maxiter] is 100, and [fit] raises. *)
Lemma infinite_deviance_skips_loop :
  exists m, new_model (Vector [huge; zero; zero]) (col [1; 1; 1]) None = Ok m
    /\ exists m1 l,
         fit_prologue default_args m = (m1, Ok l)
         /\ Family.deviance (GLM.family m1) (GLM.endog m1) (loc_mu l) = inf
         /\ isnan inf = false
         /\ loop_test default_args m1 = Ok false
         /\ exists m' out,
              run_fit m default_args = Some (m', out)
              /\ raised out = Some (UnboundLocalError "wls_results").
Proof.
  assert (H : match new_model (Vector [huge; zero; zero]) (col [1; 1; 1]) None with
              | Ok m =>
                  match fit_prologue default_args m, run_fit m default_args with
                  | (m1, Ok l), Some (m', out) =>
                      bool_decide (Family.deviance (GLM.family m1)
                                     (GLM.endog m1) (loc_mu l) = inf)
                      && match loop_test default_args m1 with
                         | Ok b => negb b
                         | Raise _ => false
                         end
                      && bool_decide (raised out
                                      = Some (UnboundLocalError "wls_results"))
                  | _, _ => false
                  end
              | Raise _ => false
              end = true) by (vm_compute; reflexivity).
  destruct (new_model _ _ _) as [m|]; [|discriminate].
  exists m. split; [reflexivity|].
  destruct (fit_prologue default_args m) as [m1 [l|]] eqn:Hp; [|discriminate].
  destruct (run_fit m default_args) as [[m' out]|] eqn:Hfit; [|discriminate].
  read_off.
  destruct (loop_test default_args m1) as [[|]|] eqn:Ht; try discriminate.
  exists m1, l. repeat (split; [assumption || reflexivity|]).
  exists m', out. split; [reflexivity|assumption].
Qed.

(** ** The theorems at concrete inputs *)

Lemma fixed_dispersion_scale_witness :
  (exists m, new_model (vec [0; 1; 2]) (col [1; 1; 1])
               (Some (identity_family Poisson)) = Ok m
     /\ exists m' r,
          fixed_dispersion (GLM.family m) = true
          /\ run_fit m default_args = Some (m', Ok r)
          /\ truthy (arg_scale default_args) = false
          /\ Results.scale r = Scalar one)
  /\ (exists m, new_model (vec [0; 1; 2]) (col [1; 1; 1])
                  (Some (identity_family Binomial)) = Ok m
        /\ exists m' r,
             fixed_dispersion (GLM.family m) = true
             /\ run_fit m (with_args 100 "IRLS" default_tol (Scalar one)
                             (PyFloat (flt 1 2)))
                = Some (m', Ok r)
             /\ truthy (PyFloat (flt 1 2)) = true
             /\ Results.scale r = Scalar (flt 1 2)).
Proof.
  split.
  - run_scenario (fun (m _ : GLM.t) (out : result Results.t) =>
                    is_ok out && fixed_dispersion (GLM.family m)).
    read_off. destruct out as [r|]; [|discriminate].
    exists m', r. repeat (split; [assumption || reflexivity|]).
    destruct (fixed_dispersion_scale column_WLS m0 default_args m' r)
      as (Hunset & _); [assumption|exact Hfit|].
    apply Hunset. reflexivity.
  - run_scenario (fun (m _ : GLM.t) (out : result Results.t) =>
                    is_ok out && fixed_dispersion (GLM.family m)).
    read_off. destruct out as [r|]; [|discriminate].
    exists m', r. repeat (split; [assumption || reflexivity|]).
    assert (Ht : truthy (PyFloat (flt 1 2)) = true) by (vm_compute; reflexivity).
    destruct (fixed_dispersion_scale column_WLS m0
                (with_args 100 "IRLS" default_tol (Scalar one)
                   (PyFloat (flt 1 2))) m' r)
      as (_ & Hfloat); [assumption|exact Hfit|].
    apply Hfloat; [reflexivity|exact Ht].
Defined.


Lemma data_weights_validation_witness :
  (exists m, new_model (vec [0; 1; 2]) (col [1; 1; 1]) None = Ok m
     /\ is_scalar (vec [1; 2; 3]) = false
     /\ Family.class (GLM.family m) <> Binomial
     /\ run_fit m (with_args 100 "IRLS" default_tol (vec [1; 2; 3]) PyNone)
        = Some (m, Raise (ValueError msg_data_weights)))
  /\ (exists m, new_model (Matrix [[of_Z 3; of_Z 1]; [of_Z 1; of_Z 1];
                                   [of_Z 2; of_Z 2]])
                  (col [1; 1; 1]) (Some (identity_family Binomial)) = Ok m
        /\ is_scalar (vec [4; 2; 4]) = false
        /\ Family.class (GLM.family m) = Binomial
        /\ exists m' out,
             run_fit m (with_args 100 "IRLS" default_tol (vec [4; 2; 4]) PyNone)
             = Some (m', out)
             /\ out <> Raise (ValueError msg_data_weights)
             /\ GLM.data_weights m' = Some (vec [4; 2; 4])).
Proof.
  split.
  - run_scenario (fun (m _ : GLM.t) (_ : result Results.t) =>
                    negb (is_Binomial (GLM.family m))).
    read_off. apply is_Binomial_false in Hp.
    repeat (split; [assumption || reflexivity|]).
    apply (data_weights_validation column_WLS m0
             (with_args 100 "IRLS" default_tol (vec [1; 2; 3]) PyNone));
      [reflexivity|exact Hp].
  - run_scenario (fun (m _ : GLM.t) (_ : result Results.t) =>
                    is_Binomial (GLM.family m)).
    apply is_Binomial_true in Hp.
    repeat (split; [assumption || reflexivity|]).
    apply (data_weights_validation column_WLS m0
             (with_args 100 "IRLS" default_tol (vec [4; 2; 4]) PyNone));
      [reflexivity|exact Hp].
Defined.

Lemma fit_endog_exog_witness :
  exists m, new_model (Matrix [[of_Z 3; of_Z 1]; [of_Z 1; of_Z 1];
                               [of_Z 2; of_Z 2]])
              (col [1; 1; 1]) (Some (identity_family Binomial)) = Ok m
    /\ exists m' out,
         run_fit m default_args = Some (m', out)
         /\ GLM.exog m' = GLM.exog m
         /\ (Family.class (GLM.family m) <> Binomial ->
             GLM.endog m' = GLM.endog m)
         /\ (Family.class (GLM.family m) = Binomial ->
             is_scalar (GLM.exog m) = false ->
             GLM.endog m' = Family.initialize (GLM.family m) (GLM.endog m)).
Proof.
  run_scenario (fun (_ _ : GLM.t) (_ : result Results.t) => true).
  exists m', out. split; [exact Hfit|].
  apply (fit_endog_exog column_WLS m0 default_args m' out Hfit).
Defined.

Lemma sentinel_first_test_witness :
  exists m, new_model (vec [0; 1; 2]) (col [1; 1; 1]) None = Ok m
    /\ exists m1 l,
         fit_prologue default_args m = (m1, Ok l)
         /\ Family.deviance (GLM.family m1) (GLM.endog m1) (loc_mu l) <> inf
         /\ gtb inf (tol default_args) = true
         /\ 1 < maxiter default_args
         /\ loop_test default_args m1 = Ok true.
Proof.
  assert (H : match new_model (vec [0; 1; 2]) (col [1; 1; 1]) None with
              | Ok m =>
                  match fit_prologue default_args m with
                  | (m1, Ok l) =>
                      negb (bool_decide
                              (Family.deviance (GLM.family m1) (GLM.endog m1)
                                 (loc_mu l) = inf))
                  | _ => false
                  end
              | Raise _ => false
              end = true) by (vm_compute; reflexivity).
  destruct (new_model _ _ _) as [m|] eqn:Hm; [|discriminate].
  exists m. split; [reflexivity|].
  destruct (fit_prologue default_args m) as [m1 [l|]] eqn:Hp; [|discriminate].
  read_off. exists m1, l.
  assert (Htol : gtb inf (tol default_args) = true) by (vm_compute; reflexivity).
  assert (Hmax : 1 < maxiter default_args) by (vm_compute; reflexivity).
  repeat (split; [assumption || reflexivity|]).
  unfold new_model in Hm.
  destruct (sentinel_first_test column_pinv column_rank
              (identity_family Gaussian) _ _ _ m default_args m1 l Hm)
    as (_ & Hloop).
  now apply Hloop.
Defined.

(** * Further properties of the engine *)

Section HistoryFacts.
Variable WLS_fit : arr -> arr -> arr -> WLS.results.

(** One pass through the loop body appends one entry to each list of the
    history and advances the counter; a pass that raises leaves the
    counter alone and has appended to all three lists or to none. *)
Lemma loop_body_history a l m m' out :
  loop_body WLS_fit a l m = (m', out) ->
  GLM.mu m' = GLM.mu m
  /\ match out with
     | Ok l' =>
         GLM.iteration m' = GLM.iteration m + 1
         /\ exists wls,
             wls_results l' = Some wls
             /\ History.params (GLM.history m')
                = (History.params (GLM.history m) ++ [WLS.params wls])%list
             /\ History.fittedvalues (GLM.history m')
                = (History.fittedvalues (GLM.history m)
                     ++ [WLS.fittedvalues wls])%list
             /\ History.deviance (GLM.history m')
                = (History.deviance (GLM.history m)
                     ++ [Family.deviance (GLM.family m) (GLM.endog m)
                           (loc_mu l')])%list
     | Raise e =>
         GLM.iteration m' = GLM.iteration m
         /\ exists ps fs ds,
             History.params (GLM.history m')
             = (History.params (GLM.history m) ++ ps)%list
             /\ History.fittedvalues (GLM.history m')
                = (History.fittedvalues (GLM.history m) ++ fs)%list
             /\ History.deviance (GLM.history m')
                = (History.deviance (GLM.history m) ++ ds)%list
             /\ length fs = length ps /\ length ds = length ps
             /\ (length ps <= 1)%nat
     end.
Proof.
  destruct m.
  unfold loop_body, bind, get, try, modify, ret, _update_history, rbind.
  cbn. intros Hb.
  repeat case_match; simplify_eq; cbn; (split; [reflexivity|]);
    (split; [reflexivity|]);
    first [ solve [eexists; repeat split; reflexivity]
          | solve [exists [], [], []; rewrite !app_nil_r; repeat split; auto]
          | solve [eexists [_], [_], [_]; repeat split; auto] ].
Qed.

(** The loop: what it appends to the history, how far the counter goes,
    and what the last entries are when it ends normally. *)
Lemma irls_history fuel a : forall l m m' out,
  irls WLS_fit fuel a l m = Some (m', out) ->
  GLM.mu m' = GLM.mu m
  /\ GLM.iteration m' <= Z.max (maxiter a) (GLM.iteration m)
  /\ exists ps fs ds,
      History.params (GLM.history m')
      = (History.params (GLM.history m) ++ ps)%list
      /\ History.fittedvalues (GLM.history m')
         = (History.fittedvalues (GLM.history m) ++ fs)%list
      /\ History.deviance (GLM.history m')
         = (History.deviance (GLM.history m) ++ ds)%list
      /\ length fs = length ps /\ length ds = length ps
      /\ match out with
         | Ok l' =>
             GLM.iteration m' = GLM.iteration m + Z.of_nat (length ps)
             /\ (ps = [] -> l' = l)
             /\ (ps <> [] ->
                 exists wls,
                   wls_results l' = Some wls
                   /\ last ps = Some (WLS.params wls)
                   /\ last fs = Some (WLS.fittedvalues wls)
                   /\ last ds = Some (Family.deviance (GLM.family m)
                                        (GLM.endog m) (loc_mu l')))
         | Raise e =>
             GLM.iteration m <= GLM.iteration m'
             /\ GLM.iteration m' - GLM.iteration m <= Z.of_nat (length ps)
                <= GLM.iteration m' - GLM.iteration m + 1
         end.
Proof.
  induction fuel as [|fuel IH]; intros l m m' out; simpl.
  - destruct (loop_test a m) as [[|]|e] eqn:Ht; intros [= <- <-];
      (split; [reflexivity|]); (split; [lia|]);
      exists [], [], []; rewrite !app_nil_r; cbn;
      repeat split; auto; solve [lia | congruence].
  - destruct (loop_test a m) as [[|]|e] eqn:Ht.
    + apply loop_test_true in Ht.
      destruct (loop_body WLS_fit a l m) as [m1 [l1|e1]] eqn:Hb.
      * intros Hrec.
        destruct (loop_body_frame _ _ _ _ _ _ Hb) as ((He1 & _ & Hf1 & _) & _).
        apply loop_body_history in Hb
          as (Hmu1 & Hit1 & wls & Hw & Hp1 & Hfv1 & Hd1).
        apply IH in Hrec
          as (Hmu & Hmax & ps & fs & ds & Hp & Hfv & Hd & Hlf & Hld & Hout).
        split; [congruence|]. split; [lia|].
        exists (WLS.params wls :: ps), (WLS.fittedvalues wls :: fs),
          (Family.deviance (GLM.family m) (GLM.endog m) (loc_mu l1) :: ds).
        rewrite Hp, Hp1, Hfv, Hfv1, Hd, Hd1, <- !app_assoc. cbn [app length].
        repeat (split; [reflexivity || congruence|]).
        destruct out as [l'|e'].
        -- destruct Hout as (Hit & Hnil & Hlast). split; [lia|].
           split; [discriminate|]. intros _.
           destruct ps as [|p ps].
           ++ specialize (Hnil eq_refl). subst l'.
              destruct fs; [|discriminate]. destruct ds; [|discriminate].
              exists wls. auto.
           ++ destruct Hlast as (wls' & Hw' & Hlp & Hlf' & Hld');
                [discriminate|].
              destruct fs as [|f fs]; [discriminate|].
              destruct ds as [|d ds]; [discriminate|].
              exists wls'. rewrite Hf1, He1 in Hld'. auto.
        -- lia.
      * intros [= <- <-].
        apply loop_body_history in Hb
          as (Hmu1 & Hit1 & ps & fs & ds & Hp & Hfv & Hd & Hlf & Hld & Hle).
        split; [exact Hmu1|]. split; [lia|].
        exists ps, fs, ds. repeat (split; [assumption|]). lia.
    + intros [= <- <-]. split; [reflexivity|]. split; [lia|].
      exists [], [], []. rewrite !app_nil_r. cbn.
      repeat split; auto; solve [lia | congruence].
    + intros [= <- <-]. split; [reflexivity|]. split; [lia|].
      exists [], [], []. rewrite !app_nil_r. cbn.
      repeat split; auto; solve [lia | congruence].
Qed.

(** The statements before the loop: what they leave alone. *)
Lemma fit_prologue_history a m m1 out :
  fit_prologue a m = (m1, out) ->
  History.params (GLM.history m1) = History.params (GLM.history m)
  /\ History.fittedvalues (GLM.history m1)
     = History.fittedvalues (GLM.history m)
  /\ GLM.mu m1 = GLM.mu m
  /\ GLM.df_model m1 = GLM.df_model m /\ GLM.df_resid m1 = GLM.df_resid m
  /\ (forall w n,
        arg_data_weights a = Scalar w -> shape0 (GLM.exog m) = Ok n ->
        GLM.data_weights m1
        = Some (if gtb w one then Vector (replicate n (mul w one))
                else Scalar w))
  /\ match out with
     | Ok l => GLM.endog m1 = fitted_endog m
     | Raise e =>
         History.deviance (GLM.history m1) = History.deviance (GLM.history m)
         /\ GLM.iteration m <= GLM.iteration m1 <= GLM.iteration m + 1
     end.
Proof.
  destruct m. unfold fit_prologue, fitted_endog, bind, get, try, modify, ret, raise.
  cbn. intros Hp.
  destruct (is_scalar (arg_data_weights a)) eqn:Hs;
    destruct (is_Binomial family) eqn:Hb; cbn in Hp;
    repeat case_match; simplify_eq; cbn in *; try congruence;
    repeat match goal with
           | |- _ /\ _ => split
           | |- forall _, _ => intro
           end;
    simplify_eq;
    repeat match goal with
           | H : gtb _ _ = _ |- _ => rewrite H
           | H : SFltb _ _ = _ |- _ => rewrite H
           end;
    try rewrite fmap_replicate;
    try reflexivity; try congruence; try lia;
    try (destruct exog; simplify_eq; cbn in *; congruence);
    try match goal with
        | Hs : is_scalar ?x = false, H : ?x = Scalar _ |- _ =>
            rewrite H in Hs; discriminate
        end.
Qed.

(** The statements after the loop: the results object is built from the
    model as the loop left it, with an empty cache. *)
Lemma fit_epilogue_results l m m' out :
  fit_epilogue l m = (m', out) ->
  GLM.history m' = GLM.history m /\ GLM.family m' = GLM.family m
  /\ GLM.mu m' = Some (loc_mu l)
  /\ GLM.df_model m' = GLM.df_model m /\ GLM.df_resid m' = GLM.df_resid m
  /\ match out with
     | Ok r =>
         Results.family r = GLM.family m /\ Results._endog r = GLM.endog m
         /\ Results.mu r = loc_mu l
         /\ Results.df_resid r = GLM.df_resid m
         /\ Results.df_model r = GLM.df_model m
         /\ Results._cache r = ∅
         /\ GLM.data_weights m = Some (Results._data_weights r)
         /\ exists n, shape0 (GLM.endog m) = Ok n
                      /\ Results.nobs r = Z.of_nat n
     | Raise e =>
         (GLM._results m' = GLM._results m
          /\ GLM.results m' = GLM.results m)
         \/ (exists wls o,
               wls_results l = Some wls
               /\ GLM._results m' = Some (Results.Unfinished o)
               /\ GLM.results m' = Some (Results.Unfinished o)
               /\ Results.p_params o = WLS.params wls
               /\ (is_scalar (GLM.endog m) = true
                   \/ GLM.data_weights m = None))
     end.
Proof.
  destruct m.
  unfold fit_epilogue, GLMResults_init, bind, get, try, modify, ret, raise,
    rbind, GLM.attr.
  cbn. intros He.
  repeat case_match; simplify_eq; cbn in *; simplify_eq;
    repeat (split; [reflexivity|]); eauto;
    first [ left; split; reflexivity
          | right; do 2 eexists; repeat (split; [reflexivity|]);
            first [ right; reflexivity
                  | left; destruct endog; [reflexivity|discriminate..] ] ].
Qed.

(** When the first deviance is NaN, [fit] stops before the loop. *)
Lemma fit_prologue_nan a m :
  is_scalar (arg_data_weights a) = true \/ is_Binomial (GLM.family m) = true ->
  is_scalar (GLM.exog m) = false ->
  isnan (Family.deviance (GLM.family m) (fitted_endog m)
           (Family.starting_mu (GLM.family m) (fitted_endog m))) = true ->
  exists m1,
    fit_prologue a m = (m1, Raise (ValueError msg_nan))
    /\ GLM.history m1 = GLM.history m
    /\ GLM.iteration m1 = GLM.iteration m + 1
    /\ GLM.endog m1 = fitted_endog m
    /\ GLM.scaletype m1 = Some (arg_scale a)
    /\ GLM._results m1 = GLM._results m /\ GLM.results m1 = GLM.results m.
Proof.
  destruct m. unfold fit_prologue, fitted_endog, bind, get, try, modify, ret, raise.
  cbn. intros Hv Hx Hnan.
  destruct exog as [x|xs|rows]; [discriminate| |];
    destruct (is_Binomial family) eqn:Hb;
    destruct (arg_data_weights a) as [w|ws|ws]; cbn in *;
    try (destruct Hv; discriminate);
    try destruct (gtb w _); cbn; rewrite ?Hb; cbn; rewrite ?Hnan;
    eexists; repeat split.
Qed.
End HistoryFacts.

Section FitProperties.
Variable WLS_fit : arr -> arr -> arr -> WLS.results.

(** What [fit] appends to the history and how far it moves the counter,
    in every outcome. *)
Lemma fit_history m a m' out :
  fit WLS_fit m a = Some (m', out) ->
  GLM.iteration m <= GLM.iteration m'
    <= Z.max (maxiter a) (GLM.iteration m + 1)
  /\ exists ps fs ds,
      History.params (GLM.history m')
      = (History.params (GLM.history m) ++ ps)%list
      /\ History.fittedvalues (GLM.history m')
         = (History.fittedvalues (GLM.history m) ++ fs)%list
      /\ History.deviance (GLM.history m')
         = (History.deviance (GLM.history m) ++ ds)%list
      /\ length fs = length ps
      /\ (length ds <= S (length ps))%nat
      /\ match out with
         | Raise _ => True
         | Ok r =>
             length ds = S (length ps) /\ (1 <= length ps)%nat
             /\ GLM.iteration m' = GLM.iteration m + Z.of_nat (length ds)
             /\ last ps = Some (Results.params r)
             /\ last ds = Some (Family.deviance (GLM.family m')
                                  (GLM.endog m') (Results.mu r))
             /\ Results.family r = GLM.family m'
             /\ Results._endog r = GLM.endog m'
             /\ GLM.mu m' = Some (Results.mu r)
             /\ GLM.data_weights m' = Some (Results._data_weights r)
             /\ Results._cache r = ∅
         end.
Proof.
  intros Hfit.
  destruct (fit_inv _ _ _ _ _ Hfit) as [(e & Hp & ->)|(m1 & l & Hp & Hrest)].
  - apply fit_prologue_history in Hp as (Hps & Hfs & _ & _ & _ & _ & Hd & Hit).
    split; [lia|]. exists [], [], []. rewrite !app_nil_r. auto 10.
  - pose proof (fit_prologue_history _ _ _ _ Hp)
      as (Hps & Hfs & _ & _ & _ & _ & He1).
    apply fit_prologue_spec in Hp
      as ((_ & Hfam & _) & _ & _ & _ & _ & Hw & Hit1 & _ & Hmu & _ & Hd1).
    destruct Hrest as [(e & Hl & ->)|(m2 & l2 & Hl & He)].
    + apply irls_history in Hl
        as (_ & Hmax & ps & fs & ds & Hp2 & Hf2 & Hd2 & Hlf & Hld & Hlo & Hbd).
      split; [lia|].
      exists ps, fs, (Family.deviance (GLM.family m) (GLM.endog m1) (loc_mu l) :: ds).
      rewrite Hp2, Hf2, Hd2, Hps, Hfs, Hd1, <- app_assoc. cbn [app length].
      repeat (split; [reflexivity || assumption|]). split; [lia|exact I].
    + pose proof (irls_spec _ _ _ _ _ _ _ Hl) as ((He2 & _ & Hf22 & _) & _).
      apply irls_history in Hl
        as (_ & Hmax & ps & fs & ds & Hp2 & Hf2 & Hd2 & Hlf & Hld & Hout).
      pose proof (fit_epilogue_spec _ _ _ _ He) as (He3 & _ & Hdw3 & Hit3 & Hr3).
      apply fit_epilogue_results in He as (Hh & Hfam3 & Hmu3 & _ & _ & Hr).
      destruct Hout as (Hit2 & Hnil & Hlast).
      rewrite Hh, Hit3.
      destruct out as [r|e].
      * destruct Hr3 as (_ & _ & wls & s & Hwls & _ & _ & Hpar & _).
        destruct Hr as (Hrf & Hre & Hrm & _ & _ & Hc & Hrd & _).
        assert (Hne : ps <> []).
        { intros ->. rewrite (Hnil eq_refl) in Hwls. congruence. }
        destruct (Hlast Hne) as (wls' & Hw' & Hlp & _ & Hld').
        assert (wls' = wls) as -> by congruence.
        assert (1 <= length ps)%nat by (destruct ps; [congruence|cbn; lia]).
        split; [lia|].
        exists ps, fs,
          (Family.deviance (GLM.family m) (GLM.endog m1) (loc_mu l) :: ds).
        rewrite Hp2, Hf2, Hd2, Hps, Hfs, Hd1, <- app_assoc. cbn [app length].
        repeat (split; [first [reflexivity | assumption | lia | congruence]|]).
        split.
        { destruct ds as [|d ds]; [destruct ps; discriminate|].
          change (last (?x :: d :: ds)) with (last (d :: ds)).
          rewrite Hld'. congruence. }
        repeat split; congruence.
      * split; [lia|].
        exists ps, fs,
          (Family.deviance (GLM.family m) (GLM.endog m1) (loc_mu l) :: ds).
        rewrite Hp2, Hf2, Hd2, Hps, Hfs, Hd1, <- app_assoc. cbn [app length].
        repeat (split; [reflexivity || assumption|]). split; [lia|exact I].
Qed.

Lemma fresh_empty r : Results._cache r = ∅ -> fresh r = r.
Proof. destruct r. cbn. now intros ->. Qed.

Lemma py_index_last2 {A} (l : list A) (i : Z) :
  Z.of_nat (length l) = i + 1 -> 1 <= i ->
  exists ds d0 d1,
    l = (ds ++ [d0; d1])%list
    /\ py_index l i = Ok d1 /\ py_index l (i - 1) = Ok d0.
Proof.
  intros Hlen Hi.
  destruct (rev l) as [|d1 [|d0 r]] eqn:Hrev.
  - apply (f_equal (@length A)) in Hrev. rewrite length_rev in Hrev.
    cbn in Hrev. lia.
  - apply (f_equal (@length A)) in Hrev. rewrite length_rev in Hrev.
    cbn in Hrev. lia.
  - assert (Hl : l = (rev r ++ [d0; d1])%list).
    { rewrite <- (rev_involutive l), Hrev. cbn. now rewrite <- !app_assoc. }
    exists (rev r), d0, d1. split; [exact Hl|].
    assert (Hn : i = Z.of_nat (length (rev r)) + 1).
    { rewrite Hl, length_app in Hlen. cbn in Hlen. lia. }
    unfold py_index.
    replace (i <? 0) with false by (symmetry; apply Z.ltb_ge; lia).
    replace (i - 1 <? 0) with false by (symmetry; apply Z.ltb_ge; lia).
    replace (i <? 0) with false by (symmetry; apply Z.ltb_ge; lia).
    replace (Z.of_nat (length l) <=? i) with false
      by (symmetry; apply Z.leb_gt; lia).
    replace (Z.of_nat (length l) <=? i - 1) with false
      by (symmetry; apply Z.leb_gt; lia).
    cbn [orb]. rewrite Hl.
    replace (Z.to_nat i) with (length (rev r) + 1)%nat by lia.
    replace (Z.to_nat (i - 1)) with (length (rev r) + 0)%nat by lia.
    rewrite !lookup_app_r by lia.
    replace (length (rev r) + 1 - length (rev r))%nat with 1%nat by lia.
    replace (length (rev r) + 0 - length (rev r))%nat with 0%nat by lia.
    split; [reflexivity|].
    destruct (i - 1 <? 0) eqn:E; [apply Z.ltb_lt in E; lia|reflexivity].
Qed.

(** C10.  Once [fit] has returned a results object, that object is the
    one attached to the model, its params are the solution of the last
    pass of the loop (the last entry of [history['params']]), the loop
    has ended (its condition is false on the model as [fit] leaves it),
    and [predict] computes with these params, whatever [params] argument
    it is given.  More generally [predict] computes with the params of
    whatever object is attached to the model; on a model that no results
    object is attached to, it computes with the [params] argument, and
    raises when there is none. *)
Theorem predict_uses_stored_params :
  (forall (m : GLM.t) (a : FitArgs) (m' : GLM.t) (r : Results.t)
          (exog : arr) (params : option arr) (linear : bool),
      fit WLS_fit m a = Some (m', Ok r) ->
      GLM._results m' = Some (Results.Built r)
      /\ GLM.results m' = Some (Results.Built r)
      /\ last (History.params (GLM.history m')) = Some (Results.params r)
      /\ loop_test a m' = Ok false
      /\ predict m' exog params linear
         = (do eta <- np_dot exog (Results.params r);
            if linear then Ok eta
            else Ok (Family.fitted (GLM.family m') eta))%res)
  /\ (forall (m : GLM.t) (o0 o : Results.obj) (exog : arr)
             (params : option arr) (linear : bool),
        GLM._results m = Some o0 -> GLM.results m = Some o ->
        predict m exog params linear
        = (do eta <- np_dot exog (Results.obj_params o);
           if linear then Ok eta
           else Ok (Family.fitted (GLM.family m) eta))%res)
  /\ (forall (m : GLM.t) (exog : arr) (params : arr) (linear : bool),
        GLM._results m = None ->
        predict m exog (Some params) linear
        = (do eta <- np_dot exog params;
           if linear then Ok eta
           else Ok (Family.fitted (GLM.family m) eta))%res)
  /\ (forall (m : GLM.t) (exog : arr) (linear : bool),
        GLM._results m = None ->
        predict m exog None linear = Raise (ValueError msg_params)).
Proof.
  split; [|split; [|split]].
  - intros m a m' r exog params linear Hfit.
    destruct (fit_inv _ _ _ _ _ Hfit) as [(e & _ & [=])|(m1 & l & _ & Hrest)].
    destruct Hrest as [(e & _ & [=])|(m2 & l2 & Hl & He)].
    apply irls_spec in Hl as (_ & Ht & _).
    pose proof (fit_epilogue_results _ _ _ _ He) as (Hh & _).
    apply fit_epilogue_spec in He as (_ & _ & _ & Hit & H1 & H2 & _).
    apply fit_history in Hfit
      as (_ & ps & fs & ds & Hp & _ & _ & _ & _ & _ & Hps & _ & Hlp & _).
    repeat (split; [assumption|]). split; [|split].
    + rewrite Hp. destruct ps as [|p ps]; [cbn in Hps; lia|].
      now rewrite last_app_cons.
    + unfold loop_test in *. now rewrite Hh, Hit.
    + unfold predict. rewrite H1, H2. cbn. now destruct params.
  - intros m o0 o exog params linear H1 H2. unfold predict.
    rewrite H1, H2. cbn. now destruct params.
  - intros m exog params linear Hnone. unfold predict. now rewrite Hnone.
  - intros m exog linear Hnone. unfold predict. now rewrite Hnone.
Qed.

(** X1.  [fit] never lowers the iteration counter and never takes it
    beyond the larger of [maxiter] and the counter at entry plus one;
    when it returns a results object it has made at least one pass
    through the loop, so the counter has grown by at least 2 and is at
    most [maxiter]. *)
Theorem fit_iteration_bounds (m : GLM.t) (a : FitArgs) (m' : GLM.t)
    (out : result Results.t) :
  fit WLS_fit m a = Some (m', out) ->
  GLM.iteration m <= GLM.iteration m'
    <= Z.max (maxiter a) (GLM.iteration m + 1)
  /\ (is_ok out = true ->
      GLM.iteration m + 2 <= GLM.iteration m' <= maxiter a).
Proof.
  intros Hfit. apply fit_history in Hfit
    as (Hbd & ps & fs & ds & _ & _ & _ & _ & _ & Hout).
  split; [exact Hbd|]. intros Hok. destruct out as [r|]; [|discriminate].
  destruct Hout as (Hlen & Hps & Hit & _). lia.
Qed.

(** X2.  [fit] only appends to the three lists of the history: what was
    there stays, in every outcome.  When it returns a results object it
    has appended k entries to [params] and to [fittedvalues] and k + 1
    to [deviance], for a number k >= 1 of passes, and the counter has
    grown by k + 1; a call that raises has appended the same number of
    entries to [params] and [fittedvalues] and at most one more to
    [deviance]. *)
Theorem fit_history_append_only (m : GLM.t) (a : FitArgs) (m' : GLM.t)
    (out : result Results.t) :
  fit WLS_fit m a = Some (m', out) ->
  exists ps fs ds,
    History.params (GLM.history m')
    = (History.params (GLM.history m) ++ ps)%list
    /\ History.fittedvalues (GLM.history m')
       = (History.fittedvalues (GLM.history m) ++ fs)%list
    /\ History.deviance (GLM.history m')
       = (History.deviance (GLM.history m) ++ ds)%list
    /\ length fs = length ps
    /\ (length ds <= S (length ps))%nat
    /\ (is_ok out = true ->
        (1 <= length ps)%nat /\ length ds = S (length ps)
        /\ GLM.iteration m' = GLM.iteration m + Z.of_nat (length ds)).
Proof.
  intros Hfit. apply fit_history in Hfit
    as (_ & ps & fs & ds & Hp & Hf & Hd & Hlf & Hld & Hout).
  exists ps, fs, ds. repeat (split; [assumption|]).
  intros Hok. destruct out as [r|]; [|discriminate].
  destruct Hout as (Hlen & Hps & Hit & _). auto.
Qed.

(** X3.  The results object that [fit] returns is the one attached to
    the model; it carries the model's [mu], [endog] and [data_weights];
    its [params] are the last entry of [history['params']], and the last
    entry of [history['deviance']] is the value its [deviance] returns. *)
Theorem results_match_model (m : GLM.t) (a : FitArgs) (m' : GLM.t)
    (r : Results.t) :
  fit WLS_fit m a = Some (m', Ok r) ->
  GLM._results m' = Some (Results.Built r)
  /\ GLM.results m' = Some (Results.Built r)
  /\ GLM.mu m' = Some (Results.mu r)
  /\ GLM.endog m' = Results._endog r
  /\ GLM.data_weights m' = Some (Results._data_weights r)
  /\ last (History.params (GLM.history m')) = Some (Results.params r)
  /\ exists d,
      last (History.deviance (GLM.history m')) = Some d
      /\ snd (deviance r) = Ok (Scalar d).
Proof.
  intros Hfit.
  assert (Hatt : GLM._results m' = Some (Results.Built r)
                 /\ GLM.results m' = Some (Results.Built r)).
  { destruct (fit_inv _ _ _ _ _ Hfit) as [(e & _ & [=])|(m1 & l & _ & Hrest)].
    destruct Hrest as [(e & _ & [=])|(m2 & l2 & _ & He)].
    apply fit_epilogue_spec in He as (_ & _ & _ & _ & H1 & H2 & _). auto. }
  apply fit_history in Hfit
    as (_ & ps & fs & ds & Hp & _ & Hd & _ & _ & Hlen & Hps & _ & Hlp & Hld
        & Hrf & Hre & Hmu & Hdw & Hc).
  destruct Hatt as (H1 & H2).
  repeat (split; [assumption || (symmetry; assumption)|]).
  split.
  - rewrite Hp. destruct ps as [|p ps]; [cbn in Hps; lia|].
    now rewrite last_app_cons.
  - eexists. split.
    + rewrite Hd. destruct ds as [|d ds]; [discriminate|].
      rewrite last_app_cons. exact Hld.
    + pose proof (deviance_fresh r) as Hdv.
      rewrite (fresh_empty r Hc) in Hdv. rewrite Hdv. congruence.
Qed.

(** X4.  The deviance history stays in step with the counter: when
    [history['deviance']] has one entry more than the counter says, as on
    a new model, it still has after a call of [fit] that returns a
    results object. *)
Theorem history_in_step (m : GLM.t) (a : FitArgs) (m' : GLM.t)
    (r : Results.t) :
  hist_sync m -> fit WLS_fit m a = Some (m', Ok r) -> hist_sync m'.
Proof.
  intros Hs Hfit. unfold hist_sync in *.
  apply fit_history in Hfit
    as (_ & ps & fs & ds & _ & _ & Hd & _ & _ & _ & _ & Hit & _).
  rewrite Hd, length_app. lia.
Qed.

(** X5.  On a model whose deviance history is in step with its counter,
    [fit] returns a results object only when the last two entries of the
    deviance history differ by no more than [tol] (or the difference is
    NaN), or the counter has reached [maxiter]. *)
Theorem fit_stops_converged_or_maxiter (m : GLM.t) (a : FitArgs)
    (m' : GLM.t) (r : Results.t) :
  hist_sync m ->
  fit WLS_fit m a = Some (m', Ok r) ->
  exists ds d0 d1,
    History.deviance (GLM.history m') = (ds ++ [d0; d1])%list
    /\ (gtb (fabs (sub d1 d0)) (tol a) = false
        \/ GLM.iteration m' = maxiter a).
Proof.
  intros Hs Hfit.
  assert (Htest : loop_test a m' = Ok false).
  { destruct (fit_inv _ _ _ _ _ Hfit) as [(e & _ & [=])|(m1 & l & _ & Hrest)].
    destruct Hrest as [(e & _ & [=])|(m2 & l2 & Hl & He)].
    apply irls_spec in Hl as (_ & Ht & _).
    pose proof (fit_epilogue_spec _ _ _ _ He) as (_ & _ & _ & Hit & _).
    apply fit_epilogue_results in He as (Hh & _).
    unfold loop_test in *. now rewrite Hh, Hit. }
  pose proof (fit_history _ _ _ _ Hfit)
    as ((_ & Hmax) & ps & fs & ds & _ & _ & Hd & _ & _ & Hlen & Hps & Hit & _).
  assert (Hs' : hist_sync m').
  { unfold hist_sync in *. rewrite Hd, length_app. lia. }
  assert (Hge : 1 <= GLM.iteration m').
  { unfold hist_sync in Hs. lia. }
  destruct (py_index_last2 _ _ Hs' Hge) as (ds' & d0 & d1 & Hl & H1 & H0).
  exists ds', d0, d1. split; [exact Hl|].
  unfold loop_test in Htest. rewrite H1, H0 in Htest. cbn [rbind] in Htest.
  destruct (gtb _ _); [|now left]. right.
  injection Htest as Hlt. apply Z.ltb_ge in Hlt. lia.
Qed.

(** ** The scale of the results *)

Lemma fit_ok_inv m a m' r :
  fit WLS_fit m a = Some (m', Ok r) ->
  exists m1 l m2 l2,
    fit_prologue a m = (m1, Ok l)
    /\ irls WLS_fit (Z.to_nat (maxiter a - GLM.iteration m1)) a l m1
       = Some (m2, Ok l2)
    /\ fit_epilogue l2 m2 = (m', Ok r).
Proof.
  intros Hfit.
  destruct (fit_inv _ _ _ _ _ Hfit) as [(e & _ & [=])|(m1 & l & Hp & Hrest)].
  destruct Hrest as [(e & _ & [=])|(m2 & l2 & Hl & He)].
  exists m1, l, m2, l2. auto.
Qed.

Lemma fit_epilogue_frame l m m' out :
  fit_epilogue l m = (m', out) ->
  GLM.scaletype m' = GLM.scaletype m /\ GLM.scale m' = GLM.scale m
  /\ GLM.endog m' = GLM.endog m /\ GLM.family m' = GLM.family m
  /\ GLM.df_resid m' = GLM.df_resid m /\ GLM.exog m' = GLM.exog m.
Proof.
  destruct m.
  unfold fit_epilogue, GLMResults_init, bind, get, try, modify, ret, raise,
    rbind, GLM.attr.
  cbn. intros He. repeat case_match; simplify_eq; cbn; auto 10.
Qed.

Lemma fit_scale m a m' r :
  fit WLS_fit m a = Some (m', Ok r) ->
  GLM.scaletype m' = Some (arg_scale a)
  /\ GLM.scale m' = Some (Results.scale r)
  /\ estimate_scale m' (Results.mu r) = Ok (Results.scale r)
  /\ GLM.family m' = GLM.family m
  /\ Results.family r = GLM.family m' /\ Results._endog r = GLM.endog m'
  /\ Results.df_resid r = GLM.df_resid m'.
Proof.
  intros Hfit.
  destruct (fit_ok_inv _ _ _ _ Hfit) as (m1 & l & m2 & l2 & Hp & Hl & He).
  apply fit_prologue_spec in Hp
    as ((_ & Hfam & _) & _ & _ & _ & _ & Hw & _ & Hst & _).
  apply irls_spec in Hl as (Hf & _ & Hpass).
  pose proof (fit_epilogue_frame _ _ _ _ He) as (Hst' & Hsc' & He' & Hf' & Hd' & _).
  pose proof (fit_epilogue_results _ _ _ _ He)
    as (_ & _ & _ & _ & _ & Hrf & Hre & Hrm & Hrd & _).
  apply fit_epilogue_spec in He
    as (_ & _ & _ & _ & _ & _ & wls & s & Hw2 & Hs2 & Hrs & _).
  destruct Hpass as [[-> ->]|(_ & _ & wls' & s' & _ & Hes & Hsc)]; [congruence|].
  assert (s' = s) as -> by congruence.
  destruct Hf as (_ & _ & Hfam2 & _ & _ & Hst2 & _).
  repeat split; try congruence.
  rewrite Hrm, Hrs, <- Hes. unfold estimate_scale, pearson_scale.
  now rewrite Hst', He', Hf', Hd'.
Qed.

Lemma lower_nonempty s : lower s = "" -> s = "".
Proof. destruct s; [reflexivity|discriminate]. Qed.

(** X6.  The scale of the results object that [fit] returns is what
    [estimate_scale] gives at the final [mu] with the [scale] argument of
    the call as the scale type, and it is the scale the model keeps. *)
Theorem fit_scale_is_estimate (m : GLM.t) (a : FitArgs) (m' : GLM.t)
    (r : Results.t) :
  fit WLS_fit m a = Some (m', Ok r) ->
  GLM.scaletype m' = Some (arg_scale a)
  /\ estimate_scale m' (Results.mu r) = Ok (Results.scale r)
  /\ GLM.scale m' = Some (Results.scale r).
Proof.
  intros Hfit. apply fit_scale in Hfit as (H1 & H2 & H3 & _). auto.
Qed.

(** X7.  With the [scale] argument 'dev' in any letter case, the scale of
    the results is the deviance at the final [mu] divided by [df_resid];
    with 'x2' in any letter case, it is the sum of
    [(endog - mu)^2 / variance(mu)] divided by [df_resid], without the
    data weights. *)
Theorem scale_by_keyword (m : GLM.t) (a : FitArgs) (m' : GLM.t)
    (r : Results.t) (s : string) :
  arg_scale a = PyStr s ->
  fit WLS_fit m a = Some (m', Ok r) ->
  (lower s = "dev" ->
   Results.scale r
   = Scalar (div (Family.deviance (Results.family r) (Results._endog r)
                    (Results.mu r))
               (of_Z (Results.df_resid r))))
  /\ (lower s = "x2" ->
      exists q,
        (do resid <- np_sub (Results._endog r) (Results.mu r);
         np_div (np_square resid)
           (Family.variance (Results.family r) (Results.mu r)))%res = Ok q
        /\ Results.scale r
           = Scalar (div (np_sum q) (of_Z (Results.df_resid r)))).
Proof.
  intros Hs Hfit.
  apply fit_scale in Hfit as (Hst & _ & Hes & _ & Hrf & Hre & Hrd).
  revert Hes. unfold estimate_scale, pearson_scale.
  rewrite Hst, Hs, Hrf, Hre, Hrd. cbn [GLM.attr rbind truthy].
  intros Hes. split; intros Hl; rewrite Hl in Hes;
    (case_bool_decide as Hne; [subst s; discriminate|]); cbn [negb] in Hes.
  - rewrite bool_decide_false in Hes by discriminate.
    rewrite bool_decide_true in Hes by reflexivity. congruence.
  - rewrite bool_decide_true in Hes by reflexivity.
    destruct (np_sub _ _) as [resid|]; cbn [rbind] in *; [|discriminate].
    destruct (np_div _ _) as [q|]; cbn [rbind] in *; [|discriminate].
    injection Hes as <-. eauto.
Qed.

(** X8.  A [scale] argument that is neither unset (or another false
    value), nor a float, nor 'x2' or 'dev' in some letter case, never
    lets [fit] return a results object. *)
Theorem scale_not_understood (m : GLM.t) (a : FitArgs) (m' : GLM.t)
    (out : result Results.t) :
  scale_understood (arg_scale a) = false ->
  fit WLS_fit m a = Some (m', out) ->
  is_ok out = false.
Proof.
  intros Hu Hfit. destruct out as [r|e]; [|reflexivity]. exfalso.
  apply fit_scale in Hfit as (Hst & _ & Hes & _).
  revert Hes. unfold estimate_scale. rewrite Hst. cbn [GLM.attr rbind].
  destruct (arg_scale a) as [|f|s|z]; cbn in Hu; try discriminate.
  - apply orb_false_iff in Hu as (Hu & Hdev).
    apply orb_false_iff in Hu as (Hemp & Hx2).
    cbn [truthy]. rewrite Hemp, Hx2, Hdev. discriminate.
  - cbn [truthy]. rewrite Hu. discriminate.
Qed.
End FitProperties.

(** X9.  [estimate_scale] reads a string scale type through [lower()]:
    two scale types that differ only in letter case and that it
    understands give the same estimate, or the same array error; two
    that it does not understand each raise the error that names the
    text it was given. *)
Theorem estimate_scale_ignores_case (m : GLM.t) (s1 s2 : string) (mu : arr) :
  lower s1 = lower s2 ->
  if scale_understood (PyStr s1)
  then estimate_scale (GLM.set_scaletype (PyStr s1) m) mu
       = estimate_scale (GLM.set_scaletype (PyStr s2) m) mu
  else estimate_scale (GLM.set_scaletype (PyStr s1) m) mu
       = Raise (ValueError (msg_scale s1 "<type 'str'>"))
       /\ estimate_scale (GLM.set_scaletype (PyStr s2) m) mu
          = Raise (ValueError (msg_scale s2 "<type 'str'>")).
Proof.
  intros Hl.
  assert (He : bool_decide (s1 = "") = bool_decide (s2 = "")).
  { apply bool_decide_ext. split; intros ->.
    - symmetry in Hl. now apply lower_nonempty.
    - now apply lower_nonempty. }
  destruct m. unfold scale_understood, estimate_scale, pearson_scale.
  cbn [GLM.set_scaletype GLM.scaletype GLM.attr rbind truthy GLM.family
       GLM.endog GLM.df_resid].
  rewrite <- He, <- Hl.
  destruct (bool_decide (s1 = "")); cbn [orb negb]; [reflexivity|].
  destruct (bool_decide (lower s1 = "x2")); cbn [orb]; [reflexivity|].
  destruct (bool_decide (lower s1 = "dev")); [reflexivity|].
  split; reflexivity.
Qed.

(** ** Outcomes of [fit] *)

Section FitOutcomes.
Variable WLS_fit : arr -> arr -> arr -> WLS.results.

Lemma loop_body_eta a l m m' l' :
  loop_body WLS_fit a l m = (m', Ok l') ->
  exists wls,
    wls_results l' = Some wls
    /\ np_dot (GLM.exog m) (WLS.params wls) = Ok (loc_eta l')
    /\ loc_mu l' = Family.fitted (GLM.family m) (loc_eta l').
Proof.
  destruct m. unfold loop_body, bind, get, try, modify, ret, _update_history.
  cbn.
  destruct (np_mul _ _); [|discriminate]. cbn.
  destruct (np_sub _ _); [|discriminate]. cbn.
  destruct (np_mul _ _); [|discriminate]. cbn.
  destruct (np_add _ _); [|discriminate]. cbn.
  destruct (np_dot _ _) eqn:Hd; [|discriminate]. cbn.
  match goal with |- context [estimate_scale ?m ?mu] =>
    destruct (estimate_scale m mu) eqn:Hs end; [|discriminate].
  cbn. intros [= <- <-]. cbn. eauto.
Qed.

Lemma irls_eta fuel a : forall l m m' l',
  irls WLS_fit fuel a l m = Some (m', Ok l') ->
  l' = l
  \/ exists wls,
      wls_results l' = Some wls
      /\ np_dot (GLM.exog m) (WLS.params wls) = Ok (loc_eta l')
      /\ loc_mu l' = Family.fitted (GLM.family m) (loc_eta l').
Proof.
  induction fuel as [|fuel IH]; intros l m m' l'; simpl.
  - destruct (loop_test a m) as [[|]|e]; intros [= <- <-]. now left.
  - destruct (loop_test a m) as [[|]|e]; [|intros [= <- <-]; now left|discriminate].
    destruct (loop_body WLS_fit a l m) as [m1 [l1|e1]] eqn:Hb; [|discriminate].
    intros Hrec. pose proof (loop_body_eta _ _ _ _ _ Hb) as Heta.
    apply loop_body_ok in Hb as (_ & _ & Hx & Hf & _).
    apply IH in Hrec as [->|(wls & Hw & Hd & Hmu)]; right; [exact Heta|].
    exists wls. rewrite <- Hx, <- Hf. auto.
Qed.

(** X10.  After [fit] has returned a results object, [predict] at the
    model's own design returns the fitted mean [mu] of the results,
    whatever [params] argument it is given; with [linear=True] it returns
    the linear predictor that [mu] is the inverse link of. *)
Theorem predict_reproduces_mu (m : GLM.t) (a : FitArgs) (m' : GLM.t)
    (r : Results.t) (params : option arr) :
  fit WLS_fit m a = Some (m', Ok r) ->
  predict m' (GLM.exog m') params false = Ok (Results.mu r)
  /\ exists eta,
      predict m' (GLM.exog m') params true = Ok eta
      /\ Results.mu r = Family.fitted (GLM.family m') eta.
Proof.
  intros Hfit.
  destruct (fit_ok_inv _ _ _ _ _ Hfit) as (m1 & l & m2 & l2 & Hp & Hl & He).
  apply fit_prologue_spec in Hp as (_ & _ & _ & _ & _ & Hw & _).
  pose proof (irls_spec _ _ _ _ _ _ _ Hl) as ((_ & Hx & Hf & _) & _).
  apply irls_eta in Hl as [->|(wls & Hw2 & Hd & Hmu)].
  { apply fit_epilogue_spec in He as (_ & _ & _ & _ & _ & _ & w & s & Hw' & _).
    congruence. }
  pose proof (fit_epilogue_frame _ _ _ _ He) as (_ & _ & _ & Hf' & _ & Hx').
  apply fit_epilogue_spec in He
    as (_ & _ & _ & _ & H1 & H2 & w & s & Hw' & _ & _ & Hpar & Hrm).
  assert (w = wls) as -> by congruence.
  unfold predict. rewrite H1, H2. cbn [GLM.attr rbind Results.obj_params].
  rewrite Hx', Hx, Hpar, Hd, Hf', Hf, Hrm, Hmu. cbn [rbind].
  split; [now destruct params|]. exists (loc_eta l2). now destruct params.
Qed.

(** X11.  A scalar [data_weights] argument w above 1 is stored, and
    handed to the results, as an array of as many copies of [w * 1.0] as
    the design has rows; a scalar that is not above 1 is stored as it
    is. *)
Theorem scalar_data_weights (m : GLM.t) (a : FitArgs) (m' : GLM.t)
    (r : Results.t) (w : float) (n : nat) :
  arg_data_weights a = Scalar w ->
  shape0 (GLM.exog m) = Ok n ->
  fit WLS_fit m a = Some (m', Ok r) ->
  Results._data_weights r
  = (if gtb w one then Vector (replicate n (mul w one)) else Scalar w)
  /\ GLM.data_weights m' = Some (Results._data_weights r).
Proof.
  intros Hw Hn Hfit.
  destruct (fit_ok_inv _ _ _ _ _ Hfit) as (m1 & l & m2 & l2 & Hp & Hl & He).
  apply fit_prologue_history in Hp as (_ & _ & _ & _ & _ & Hdw & _).
  specialize (Hdw w n Hw Hn).
  apply irls_spec in Hl as ((_ & _ & _ & _ & _ & _ & Hdw2 & _) & _).
  pose proof (fit_epilogue_spec _ _ _ _ He) as (_ & _ & Hdw3 & _).
  apply fit_epilogue_results in He as (_ & _ & _ & _ & _ & _ & _ & _ & _ & _ & _ & Hr & _).
  split; congruence.
Qed.

(** X12.  When the deviance of the starting values is NaN, [fit] raises
    the error of the first guess before the loop: nothing is appended to
    the history and no results object is attached, but the counter has
    advanced by one and the scale type is the one of the call. *)
Theorem nan_first_deviance (m : GLM.t) (a : FitArgs) :
  is_scalar (arg_data_weights a) = true \/ is_Binomial (GLM.family m) = true ->
  is_scalar (GLM.exog m) = false ->
  isnan (Family.deviance (GLM.family m) (fitted_endog m)
           (Family.starting_mu (GLM.family m) (fitted_endog m))) = true ->
  exists m',
    fit WLS_fit m a = Some (m', Raise (ValueError msg_nan))
    /\ GLM.history m' = GLM.history m
    /\ GLM.iteration m' = GLM.iteration m + 1
    /\ GLM.scaletype m' = Some (arg_scale a)
    /\ GLM._results m' = GLM._results m.
Proof.
  intros Hv Hx Hnan.
  destruct (fit_prologue_nan a m Hv Hx Hnan)
    as (m1 & Hp & Hh & Hit & _ & Hst & Hr & _).
  exists m1. unfold fit. rewrite Hp. auto.
Qed.



(** X14.  The log-likelihood of the results that [fit] returns, for a
    family other than NegativeBinomial, is [model.loglike] at the
    model's [endog], [mu] and [scale] after the call. *)
Theorem llf_is_model_loglike (m : GLM.t) (a : FitArgs) (m' : GLM.t)
    (r : Results.t) :
  Family.class (GLM.family m) <> NegativeBinomial ->
  fit WLS_fit m a = Some (m', Ok r) ->
  exists mu scale,
    GLM.mu m' = Some mu /\ GLM.scale m' = Some scale
    /\ snd (llf r) = Ok (Scalar (loglike m' (GLM.endog m') mu scale)).
Proof.
  intros Hnb Hfit.
  pose proof (fit_scale _ _ _ _ _ Hfit) as (_ & Hsc & _ & Hfam & Hrf & Hre & _).
  apply fit_history in Hfit
    as (_ & ps & fs & ds & _ & _ & _ & _ & _ & _ & _ & _ & _ & _ & _ & _ & Hmu
        & _ & Hc).
  exists (Results.mu r), (Results.scale r). repeat (split; [assumption|]).
  pose proof (llf_fresh r) as Hl. rewrite (fresh_empty r Hc) in Hl.
  rewrite Hl, bool_decide_false by congruence.
  unfold loglike. now rewrite Hrf, Hre.
Qed.
End FitOutcomes.

(** ** The constructor and [initialize] *)

Section ConstructionProperties.
Variable WLS_fit : arr -> arr -> arr -> WLS.results.
Variable pinv : arr -> arr.
Variable rank : arr -> Z.
Variable default_family : Family.t.

Lemma initialize_fields m m' out :
  initialize pinv rank m = (m', out) ->
  GLM.endog m' = GLM.endog m /\ GLM.exog m' = GLM.exog m
  /\ GLM.family m' = GLM.family m
  /\ GLM._results m' = GLM._results m /\ GLM.results m' = GLM.results m
  /\ GLM.history m'
     = {| History.fittedvalues := []; History.params := [Scalar inf];
          History.deviance := [inf] |}
  /\ GLM.iteration m' = 0
  /\ GLM.pinv_wexog m' = pinv (GLM.exog m)
  /\ (out = Ok tt ->
      np_dot (pinv (GLM.exog m)) (np_transpose (pinv (GLM.exog m)))
      = Ok (GLM.normalized_cov_params m')
      /\ GLM.df_model m' = rank (GLM.exog m) - 1
      /\ exists n, shape0 (GLM.exog m) = Ok n
                   /\ GLM.df_resid m' = Z.of_nat n - rank (GLM.exog m)).
Proof.
  destruct m. unfold initialize, bind, get, try, modify, ret. cbn.
  intros Hi. repeat case_match; simplify_eq; cbn;
    do 8 (split; [reflexivity|]); intros Hout; try discriminate Hout;
    repeat (split; [reflexivity|]); eauto.
Qed.

(** X15.  The constructor raises the size error when [endog] and [exog]
    do not have the same number of rows, whatever the family. *)
Theorem GLM_init_size_mismatch (endog exog : arr) (family : option Family.t)
    (n k : nat) :
  shape0 endog = Ok n -> shape0 exog = Ok k -> n <> k ->
  GLM_init pinv rank default_family endog exog family
  = Raise (ValueError msg_size).
Proof.
  intros Hn Hk Hne. unfold GLM_init. rewrite Hn. cbn [rbind].
  destruct exog as [x|xs|rows]; [discriminate| |];
    rewrite Hk; cbn [rbind];
    apply Nat.eqb_neq in Hne; now rewrite Hne.
Qed.

(** X16.  A model that the constructor returns has as many rows in
    [endog] as in [exog]; its degrees of freedom are [rank(exog) - 1] for
    the model and [rows - rank(exog)] for the residuals, so that they add
    up to [rows - 1]; its family is the one given, or the default one
    when none is given. *)
Theorem GLM_init_degrees_of_freedom (endog exog : arr)
    (family : option Family.t) (m : GLM.t) :
  GLM_init pinv rank default_family endog exog family = Ok m ->
  exists n,
    shape0 endog = Ok n /\ shape0 exog = Ok n
    /\ GLM.df_model m = rank exog - 1
    /\ GLM.df_resid m = Z.of_nat n - rank exog
    /\ GLM.df_model m + GLM.df_resid m = Z.of_nat n - 1
    /\ GLM.family m = match family with
                      | Some f => f
                      | None => default_family
                      end.
Proof.
  unfold GLM_init. intros Hi.
  destruct (shape0 endog) as [n|] eqn:Hn; [|discriminate]. cbn [rbind] in Hi.
  assert (Hk : exists k, shape0 exog = Ok k
                         /\ (do k <- match exog with
                                     | Scalar _ => Raise (TypeError msg_unsized)
                                     | _ => shape0 exog
                                     end; Ok k)%res = Ok k).
  { destruct exog; [discriminate| |]; cbn; eauto. }
  destruct Hk as (k & Hk & Hk').
  destruct exog as [x|xs|rows]; [discriminate| |];
    rewrite Hk in Hi; cbn [rbind] in Hi;
    (destruct (Nat.eqb n k) eqn:Heq; [|discriminate]);
    apply Nat.eqb_eq in Heq; subst k; cbn [negb] in Hi;
    match type of Hi with
    | match initialize _ _ ?m0 with _ => _ end = _ =>
        destruct (initialize pinv rank m0) as [m1 [[]|e]] eqn:Hini;
        [|discriminate];
        apply initialize_fields in Hini
          as (_ & _ & Hf & _ & _ & _ & _ & _ & Hok);
        destruct (Hok eq_refl) as (_ & Hdm & n' & Hn' & Hdr)
    end;
    injection Hi as <-; cbn [GLM.exog GLM.family] in Hn', Hdm, Hdr, Hf;
    assert (n' = n) as -> by congruence;
    exists n; repeat (split; [first [assumption | reflexivity | lia]|]);
    destruct family; exact Hf.
Qed.

(** X17.  For a model from the constructor whose family is not
    Binomial, the number of observations of the results that [fit]
    returns is the number of rows of the data, one more than the sum of
    the two degrees of freedom of the results. *)
Theorem nobs_is_rows (endog exog : arr) (family : option Family.t)
    (m : GLM.t) (a : FitArgs) (m' : GLM.t) (r : Results.t) :
  GLM_init pinv rank default_family endog exog family = Ok m ->
  Family.class (GLM.family m) <> Binomial ->
  fit WLS_fit m a = Some (m', Ok r) ->
  shape0 endog = Ok (Z.to_nat (Results.nobs r))
  /\ Results.nobs r = Results.df_model r + Results.df_resid r + 1.
Proof.
  intros Hinit Hnb Hfit.
  pose proof (GLM_init_spec _ _ _ _ _ _ _ Hinit) as (_ & _ & _ & Hen & _).
  destruct (GLM_init_degrees_of_freedom _ _ _ _ Hinit)
    as (n & Hn & _ & _ & _ & Hsum & _).
  destruct (fit_ok_inv _ _ _ _ _ Hfit) as (m1 & l & m2 & l2 & Hp & Hl & He).
  pose proof (fit_prologue_history _ _ _ _ Hp) as (_ & _ & _ & Hdm & Hdr & _).
  apply fit_prologue_spec in Hp as (_ & He1 & _).
  apply is_Binomial_false in Hnb. specialize (He1 Hnb).
  apply irls_spec in Hl as ((He2 & _ & _ & Hdr2 & Hdm2 & _) & _).
  apply fit_epilogue_results in He
    as (_ & _ & _ & _ & _ & _ & _ & _ & Hrr & Hrm & _ & _ & k & Hk & Hnobs).
  assert (k = n) as -> by congruence.
  rewrite Hnobs, Nat2Z.id. split; [exact Hn|]. lia.
Qed.

(** X18.  [initialize] puts the history and the counter back to those of
    a new model, in every outcome; it keeps the data, the family and the
    attached results object, so [predict] is as before; and calling it
    again changes nothing more. *)
Theorem initialize_resets (m m' : GLM.t) (out : result unit) :
  initialize pinv rank m = (m', out) ->
  GLM.history m'
  = {| History.fittedvalues := []; History.params := [Scalar inf];
       History.deviance := [inf] |}
  /\ GLM.iteration m' = 0
  /\ GLM.endog m' = GLM.endog m
  /\ (forall exog params linear,
        predict m' exog params linear = predict m exog params linear)
  /\ initialize pinv rank m' = (m', out).
Proof.
  intros Hi.
  pose proof (initialize_fields _ _ _ Hi)
    as (He & _ & Hf & H1 & H2 & Hh & Hit & _).
  repeat (split; [assumption|]). split.
  - intros exog params linear. unfold predict. now rewrite H1, H2, Hf.
  - revert Hi. destruct m.
    unfold initialize, bind, get, try, modify, ret. cbn.
    destruct (np_dot _ _) eqn:Hd; cbn;
      [destruct (shape0 exog) eqn:Hs; cbn|];
      intros [= <- <-]; cbn; rewrite ?Hd; cbn; rewrite ?Hs; reflexivity.
Qed.
End ConstructionProperties.

(** ** The diagnostics of the results *)

Section DiagnosticsProperties.
Variable WLS_fit : arr -> arr -> arr -> WLS.results.
Variable np_log : float -> float.

Lemma resid_working_fresh r :
  snd (resid_working (fresh r))
  = (do rr <- snd (resid_response (fresh r));
     do val <- np_div rr (Family.link_deriv (Results.family r) (Results.mu r));
     np_imul val (Results._data_weights r))%res.
Proof.
  unfold resid_working. rewrite cached_fresh. unfold bind at 1.
  destruct (respects_resid_response WLS_fit np_log (fresh r)
              (cache_ok_fresh _ _ r)) as (_ & Hfr & _).
  change (access WLS_fit np_log Resid_response) with resid_response in Hfr.
  destruct (resid_response (fresh r)) as [r1 [rr|e]]; [|reflexivity].
  cbn in Hfr. destruct r1, r. cbn in Hfr.
  injection Hfr as -> -> -> -> -> -> -> -> -> -> -> -> ->.
  unfold bind, get, try. cbn. now destruct (np_div _ _).
Qed.

Lemma null_deviance_fresh r :
  snd (null_deviance WLS_fit (fresh r))
  = (do nl <- snd (null WLS_fit (fresh r));
     Ok (Scalar (Family.deviance (Results.family r) (Results._endog r) nl)))%res.
Proof.
  unfold null_deviance. rewrite cached_fresh. unfold bind at 1.
  destruct (respects_null WLS_fit np_log (fresh r)
              (cache_ok_fresh _ _ r)) as (_ & Hfr & _).
  change (access WLS_fit np_log Null) with (null WLS_fit) in Hfr.
  destruct (null WLS_fit (fresh r)) as [r1 [nl|e]]; [|reflexivity].
  cbn in Hfr. destruct r1, r. cbn in Hfr.
  injection Hfr as -> -> -> -> -> -> -> -> -> -> -> -> ->.
  reflexivity.
Qed.

(** X20.  Whatever diagnostics were read before, [resid_working] is the
    response residuals [data_weights * (endog - mu)] divided by
    [link.deriv(mu)] and multiplied by [data_weights] once more, and
    [null_deviance] is the deviance of [endog] at the value of [null];
    each raises what the diagnostic it reads raises. *)
Theorem working_and_null_deviance (r : Results.t) (ds : list diagnostic) :
  let s := accesses WLS_fit np_log ds (fresh r) in
  snd (resid_working s)
  = (do rr <- response_residuals (Results._data_weights s)
                (Results._endog s) (Results.mu s);
     do val <- np_div rr
                 (Family.link_deriv (Results.family s) (Results.mu s));
     np_imul val (Results._data_weights s))%res
  /\ snd (null_deviance WLS_fit s)
     = (do nl <- snd (null WLS_fit s);
        Ok (Scalar (Family.deviance (Results.family s) (Results._endog s)
                      nl)))%res.
Proof.
  intros s.
  destruct (accesses_fields WLS_fit np_log ds r)
    as (Hw & He & Hm & _ & _ & _ & Hf).
  fold s in Hw, He, Hm, Hf. rewrite Hw, He, Hm, Hf. unfold s.
  pose proof (access_value WLS_fit np_log Resid_working ds r) as H1.
  pose proof (access_value WLS_fit np_log Null_deviance ds r) as H2.
  pose proof (access_value WLS_fit np_log Null ds r) as H3.
  change (access WLS_fit np_log Resid_working) with resid_working in H1.
  change (access WLS_fit np_log Null_deviance)
    with (null_deviance WLS_fit) in H2.
  change (access WLS_fit np_log Null) with (null WLS_fit) in H3.
  rewrite H1, H2, H3, resid_working_fresh, null_deviance_fresh.
  split; [|reflexivity].
  pose proof (resid_response_value WLS_fit np_log r []) as H4.
  cbn in H4. rewrite H4. now destruct r.
Qed.

End DiagnosticsProperties.

(** ** Fitting again *)

Section Refit.
Variable WLS_fit : arr -> arr -> arr -> WLS.results.

Lemma fit_ok_endog m a m' r :
  fit WLS_fit m a = Some (m', Ok r) ->
  GLM.endog m' = fitted_endog m /\ GLM.family m' = GLM.family m
  /\ Results._endog r = GLM.endog m'.
Proof.
  intros Hfit.
  pose proof (fit_scale _ _ _ _ _ Hfit) as (_ & _ & _ & Hfam & _ & Hre & _).
  destruct (fit_ok_inv _ _ _ _ _ Hfit) as (m1 & l & m2 & l2 & Hp & Hl & He).
  apply fit_prologue_history in Hp as (_ & _ & _ & _ & _ & _ & He1).
  apply irls_spec in Hl as ((He2 & _) & _).
  apply fit_epilogue_spec in He as (He3 & _).
  repeat split; congruence.
Qed.

(** X23.  On a Binomial model every call of [fit] passes [endog] through
    the family's [initialize] again: after two calls that returned, the
    model and the second results object hold [initialize] applied twice
    to the [endog] the model was built with. *)
Theorem binomial_refit_initializes_again (m : GLM.t) (a1 a2 : FitArgs)
    (m1 m2 : GLM.t) (r1 r2 : Results.t) :
  Family.class (GLM.family m) = Binomial ->
  fit WLS_fit m a1 = Some (m1, Ok r1) ->
  fit WLS_fit m1 a2 = Some (m2, Ok r2) ->
  GLM.endog m2
  = Family.initialize (GLM.family m)
      (Family.initialize (GLM.family m) (GLM.endog m))
  /\ Results._endog r2 = GLM.endog m2
  /\ Results._endog r1 = Family.initialize (GLM.family m) (GLM.endog m).
Proof.
  intros Hb H1 H2.
  apply fit_ok_endog in H1 as (He1 & Hf1 & Hr1).
  apply fit_ok_endog in H2 as (He2 & Hf2 & Hr2).
  apply is_Binomial_true in Hb.
  unfold fitted_endog in He1, He2. rewrite Hf1 in He2. rewrite Hb in He1, He2.
  repeat split; congruence.
Qed.
End Refit.

(** ** The further properties at concrete inputs

    The runs are those of a Gaussian model with the identity link on the
    responses 0, 1, 2 and a constant regressor. *)

Ltac build_model :=
  match goal with
  | |- exists m, new_model ?endog ?exog ?family = Ok m /\ _ =>
      let H := fresh "H" in
      let m := fresh "m" in
      let Hm := fresh "Hm" in
      assert (H : is_ok (new_model endog exog family) = true)
        by (vm_compute; reflexivity);
      destruct (new_model endog exog family) as [m|] eqn:Hm;
        [|discriminate H];
      exists m; split; [reflexivity|]
  end.

Ltac returned r :=
  read_off;
  match goal with
  | out : result Results.t |- _ => destruct out as [r|]; [|discriminate]
  end.

Lemma predict_uses_stored_params_witness :
  exists m, new_model (vec [0; 1; 2]) (col [1; 1; 1]) None = Ok m
    /\ GLM._results m = None
    /\ predict m (col [1; 1]) (Some (vec [5])) true
       = (do eta <- np_dot (col [1; 1]) (vec [5]);
          if true then Ok eta else Ok (Family.fitted (GLM.family m) eta))%res
    /\ predict m (col [1; 1]) None true = Raise (ValueError msg_params)
    /\ exists m' r,
         run_fit m default_args = Some (m', Ok r)
         /\ (GLM._results m' = Some (Results.Built r)
             /\ GLM.results m' = Some (Results.Built r)
             /\ last (History.params (GLM.history m'))
                = Some (Results.params r)
             /\ loop_test default_args m' = Ok false
             /\ predict m' (col [1; 1]) (Some (vec [5])) true
                = (do eta <- np_dot (col [1; 1]) (Results.params r);
                   if true then Ok eta
                   else Ok (Family.fitted (GLM.family m') eta))%res)
         /\ predict m' (col [1; 1]) None false
            = (do eta <- np_dot (col [1; 1])
                          (Results.obj_params (Results.Built r));
               if false then Ok eta
               else Ok (Family.fitted (GLM.family m') eta))%res.
Proof.
  run_scenario (fun (m _ : GLM.t) (out : result Results.t) =>
                  is_ok out
                  && match GLM._results m with None => true | Some _ => false end).
  read_off. destruct out as [r|]; [|discriminate].
  destruct (GLM._results m0) eqn:Hnone; [discriminate|].
  destruct (predict_uses_stored_params column_WLS)
    as (Hfitted & Hattached & Hnew & Hnone').
  split; [reflexivity|]. split; [now apply Hnew|].
  split; [now apply Hnone'|].
  exists m', r. split; [exact Hfit|].
  pose proof (Hfitted m0 default_args m' r (col [1; 1]) (Some (vec [5])) true
                Hfit) as Hrun.
  split; [exact Hrun|].
  destruct Hrun as (H1 & H2 & _).
  exact (Hattached m' (Results.Built r) (Results.Built r) (col [1; 1]) None
           false H1 H2).
Defined.

Lemma fit_iteration_bounds_witness :
  exists m, new_model (vec [0; 1; 2]) (col [1; 1; 1]) None = Ok m
    /\ exists m' out,
         run_fit m default_args = Some (m', out)
         /\ GLM.iteration m <= GLM.iteration m'
              <= Z.max (maxiter default_args) (GLM.iteration m + 1)
         /\ (is_ok out = true ->
             GLM.iteration m + 2 <= GLM.iteration m'
               <= maxiter default_args).
Proof.
  run_scenario (fun (_ _ : GLM.t) (_ : result Results.t) => true).
  exists m', out. split; [exact Hfit|].
  apply (fit_iteration_bounds column_WLS m0 default_args m' out Hfit).
Defined.

Lemma fit_history_append_only_witness :
  exists m, new_model (vec [0; 1; 2]) (col [1; 1; 1]) None = Ok m
    /\ exists m' out,
         run_fit m default_args = Some (m', out)
         /\ exists ps fs ds,
             History.params (GLM.history m')
             = (History.params (GLM.history m) ++ ps)%list
             /\ History.fittedvalues (GLM.history m')
                = (History.fittedvalues (GLM.history m) ++ fs)%list
             /\ History.deviance (GLM.history m')
                = (History.deviance (GLM.history m) ++ ds)%list
             /\ length fs = length ps
             /\ (length ds <= S (length ps))%nat
             /\ (is_ok out = true ->
                 (1 <= length ps)%nat /\ length ds = S (length ps)
                 /\ GLM.iteration m'
                    = GLM.iteration m + Z.of_nat (length ds)).
Proof.
  run_scenario (fun (_ _ : GLM.t) (_ : result Results.t) => true).
  exists m', out. split; [exact Hfit|].
  apply (fit_history_append_only column_WLS m0 default_args m' out Hfit).
Defined.

Lemma results_match_model_witness :
  exists m, new_model (vec [0; 1; 2]) (col [1; 1; 1]) None = Ok m
    /\ exists m' r,
         run_fit m default_args = Some (m', Ok r)
         /\ GLM._results m' = Some (Results.Built r)
         /\ GLM.results m' = Some (Results.Built r)
         /\ GLM.mu m' = Some (Results.mu r)
         /\ GLM.endog m' = Results._endog r
         /\ GLM.data_weights m' = Some (Results._data_weights r)
         /\ last (History.params (GLM.history m')) = Some (Results.params r)
         /\ exists d,
             last (History.deviance (GLM.history m')) = Some d
             /\ snd (deviance r) = Ok (Scalar d).
Proof.
  run_scenario (fun (_ _ : GLM.t) (out : result Results.t) => is_ok out).
  returned r. exists m', r. split; [exact Hfit|].
  apply (results_match_model column_WLS m0 default_args m' r Hfit).
Defined.

Lemma history_in_step_witness :
  exists m, new_model (vec [0; 1; 2]) (col [1; 1; 1]) None = Ok m
    /\ hist_sync m
    /\ exists m' r, run_fit m default_args = Some (m', Ok r) /\ hist_sync m'.
Proof.
  run_scenario (fun (m _ : GLM.t) (out : result Results.t) =>
                  is_ok out
                  && (Z.of_nat (length (History.deviance (GLM.history m)))
                      =? GLM.iteration m + 1)).
  returned r.
  match goal with H : (_ =? _) = true |- _ => apply Z.eqb_eq in H; rename H into Hs end.
  split; [exact Hs|]. exists m', r. split; [exact Hfit|].
  apply (history_in_step column_WLS m0 default_args m' r Hs Hfit).
Defined.

Lemma fit_stops_converged_or_maxiter_witness :
  exists m, new_model (vec [0; 1; 2]) (col [1; 1; 1]) None = Ok m
    /\ hist_sync m
    /\ exists m' r,
         run_fit m default_args = Some (m', Ok r)
         /\ exists ds d0 d1,
             History.deviance (GLM.history m') = (ds ++ [d0; d1])%list
             /\ (gtb (fabs (sub d1 d0)) (tol default_args) = false
                 \/ GLM.iteration m' = maxiter default_args).
Proof.
  run_scenario (fun (m _ : GLM.t) (out : result Results.t) =>
                  is_ok out
                  && (Z.of_nat (length (History.deviance (GLM.history m)))
                      =? GLM.iteration m + 1)).
  returned r.
  match goal with H : (_ =? _) = true |- _ => apply Z.eqb_eq in H; rename H into Hs end.
  split; [exact Hs|]. exists m', r. split; [exact Hfit|].
  apply (fit_stops_converged_or_maxiter column_WLS m0 default_args m' r Hs Hfit).
Defined.

Lemma fit_scale_is_estimate_witness :
  exists m, new_model (vec [0; 1; 2]) (col [1; 1; 1]) None = Ok m
    /\ exists m' r,
         run_fit m default_args = Some (m', Ok r)
         /\ GLM.scaletype m' = Some (arg_scale default_args)
         /\ estimate_scale m' (Results.mu r) = Ok (Results.scale r)
         /\ GLM.scale m' = Some (Results.scale r).
Proof.
  run_scenario (fun (_ _ : GLM.t) (out : result Results.t) => is_ok out).
  returned r. exists m', r. split; [exact Hfit|].
  apply (fit_scale_is_estimate column_WLS m0 default_args m' r Hfit).
Defined.

Lemma scale_by_keyword_witness :
  exists m, new_model (vec [0; 1; 2]) (col [1; 1; 1]) None = Ok m
    /\ exists m' r,
         run_fit m (with_args 100 "IRLS" default_tol (Scalar one)
                      (PyStr "Dev"))
         = Some (m', Ok r)
         /\ lower "Dev" = "dev"
         /\ Results.scale r
            = Scalar (div (Family.deviance (Results.family r)
                             (Results._endog r) (Results.mu r))
                        (of_Z (Results.df_resid r))).
Proof.
  run_scenario (fun (_ _ : GLM.t) (out : result Results.t) => is_ok out).
  returned r. exists m', r. split; [exact Hfit|]. split; [reflexivity|].
  apply (scale_by_keyword column_WLS m0
           (with_args 100 "IRLS" default_tol (Scalar one) (PyStr "Dev"))
           m' r "Dev" eq_refl Hfit).
  reflexivity.
Defined.

Lemma scale_not_understood_witness :
  exists m, new_model (vec [0; 1; 2]) (col [1; 1; 1]) None = Ok m
    /\ scale_understood (PyStr "deviance") = false
    /\ exists m' out,
         run_fit m (with_args 100 "IRLS" default_tol (Scalar one)
                      (PyStr "deviance"))
         = Some (m', out)
         /\ is_ok out = false.
Proof.
  run_scenario (fun (_ _ : GLM.t) (_ : result Results.t) => true).
  split; [reflexivity|]. exists m', out. split; [exact Hfit|].
  apply (scale_not_understood column_WLS m0
           (with_args 100 "IRLS" default_tol (Scalar one) (PyStr "deviance"))
           m' out eq_refl Hfit).
Defined.

Lemma estimate_scale_ignores_case_witness :
  exists m, new_model (vec [0; 1; 2]) (col [1; 1; 1]) None = Ok m
    /\ lower "X2" = lower "x2"
    /\ estimate_scale (GLM.set_scaletype (PyStr "X2") m) (vec [1; 1; 1])
       = estimate_scale (GLM.set_scaletype (PyStr "x2") m) (vec [1; 1; 1])
    /\ lower "ABC" = lower "abc"
    /\ estimate_scale (GLM.set_scaletype (PyStr "ABC") m) (vec [1; 1; 1])
       = Raise (ValueError (msg_scale "ABC" "<type 'str'>"))
    /\ estimate_scale (GLM.set_scaletype (PyStr "abc") m) (vec [1; 1; 1])
       = Raise (ValueError (msg_scale "abc" "<type 'str'>")).
Proof.
  build_model. split; [reflexivity|]. split.
  - apply (estimate_scale_ignores_case m0 "X2" "x2" (vec [1; 1; 1]) eq_refl).
  - split; [reflexivity|].
    apply (estimate_scale_ignores_case m0 "ABC" "abc" (vec [1; 1; 1]) eq_refl).
Defined.

Lemma predict_reproduces_mu_witness :
  exists m, new_model (vec [0; 1; 2]) (col [1; 1; 1]) None = Ok m
    /\ exists m' r,
         run_fit m default_args = Some (m', Ok r)
         /\ predict m' (GLM.exog m') None false = Ok (Results.mu r)
         /\ exists eta,
             predict m' (GLM.exog m') None true = Ok eta
             /\ Results.mu r = Family.fitted (GLM.family m') eta.
Proof.
  run_scenario (fun (_ _ : GLM.t) (out : result Results.t) => is_ok out).
  returned r. exists m', r. split; [exact Hfit|].
  apply (predict_reproduces_mu column_WLS m0 default_args m' r None Hfit).
Defined.

Lemma scalar_data_weights_witness :
  exists m, new_model (vec [0; 1; 2]) (col [1; 1; 1]) None = Ok m
    /\ shape0 (GLM.exog m) = Ok 3%nat
    /\ exists m' r,
         run_fit m (with_args 100 "IRLS" default_tol (Scalar (of_Z 2)) PyNone)
         = Some (m', Ok r)
         /\ Results._data_weights r
            = (if gtb (of_Z 2) one
               then Vector (replicate 3 (mul (of_Z 2) one))
               else Scalar (of_Z 2))
         /\ GLM.data_weights m' = Some (Results._data_weights r).
Proof.
  run_scenario (fun (m _ : GLM.t) (out : result Results.t) =>
                  is_ok out && bool_decide (GLM.exog m = col [1; 1; 1])).
  returned r.
  assert (Hn : shape0 (GLM.exog m0) = Ok 3%nat).
  { match goal with H : GLM.exog m0 = _ |- _ => rewrite H end. reflexivity. }
  split; [exact Hn|]. exists m', r. split; [exact Hfit|].
  apply (scalar_data_weights column_WLS m0
           (with_args 100 "IRLS" default_tol (Scalar (of_Z 2)) PyNone)
           m' r (of_Z 2) 3%nat eq_refl Hn Hfit).
Defined.

Lemma nan_first_deviance_witness :
  exists m, new_model (Vector [nan; of_Z 1; of_Z 2]) (col [1; 1; 1]) None
            = Ok m
    /\ exists m',
         run_fit m default_args = Some (m', Raise (ValueError msg_nan))
         /\ GLM.history m' = GLM.history m
         /\ GLM.iteration m' = GLM.iteration m + 1
         /\ GLM.scaletype m' = Some (arg_scale default_args)
         /\ GLM._results m' = GLM._results m.
Proof.
  assert (H : match new_model (Vector [nan; of_Z 1; of_Z 2]) (col [1; 1; 1])
                      None with
              | Ok m =>
                  negb (is_scalar (GLM.exog m))
                  && isnan (Family.deviance (GLM.family m) (fitted_endog m)
                              (Family.starting_mu (GLM.family m)
                                 (fitted_endog m)))
              | Raise _ => false
              end = true) by (vm_compute; reflexivity).
  destruct (new_model _ _ _) as [m|] eqn:Hm; [|discriminate].
  read_off. exists m. split; [reflexivity|].
  apply (nan_first_deviance column_WLS m default_args);
    [left; reflexivity|assumption|assumption].
Defined.


Lemma llf_is_model_loglike_witness :
  exists m, new_model (vec [0; 1; 2]) (col [1; 1; 1]) None = Ok m
    /\ Family.class (GLM.family m) <> NegativeBinomial
    /\ exists m' r,
         run_fit m default_args = Some (m', Ok r)
         /\ exists mu scale,
             GLM.mu m' = Some mu /\ GLM.scale m' = Some scale
             /\ snd (llf r)
                = Ok (Scalar (loglike m' (GLM.endog m') mu scale)).
Proof.
  run_scenario (fun (m _ : GLM.t) (out : result Results.t) =>
                  is_ok out
                  && negb (bool_decide (Family.class (GLM.family m)
                                        = NegativeBinomial))).
  returned r.
  match goal with H : Family.class _ <> _ |- _ => rename H into Hnb end.
  split; [exact Hnb|]. exists m', r. split; [exact Hfit|].
  apply (llf_is_model_loglike column_WLS m0 default_args m' r Hnb Hfit).
Defined.

Lemma GLM_init_size_mismatch_witness :
  shape0 (vec [0; 1; 2]) = Ok 3%nat
  /\ shape0 (col [1; 1]) = Ok 2%nat
  /\ new_model (vec [0; 1; 2]) (col [1; 1]) None
     = Raise (ValueError msg_size).
Proof.
  split; [reflexivity|]. split; [reflexivity|].
  apply (GLM_init_size_mismatch column_pinv column_rank
           (identity_family Gaussian) (vec [0; 1; 2]) (col [1; 1]) None
           3%nat 2%nat);
    [reflexivity|reflexivity|lia].
Defined.

Lemma GLM_init_degrees_of_freedom_witness :
  exists m, new_model (vec [0; 1; 2]) (col [1; 1; 1]) None = Ok m
    /\ exists n,
         shape0 (vec [0; 1; 2]) = Ok n /\ shape0 (col [1; 1; 1]) = Ok n
         /\ GLM.df_model m = column_rank (col [1; 1; 1]) - 1
         /\ GLM.df_resid m = Z.of_nat n - column_rank (col [1; 1; 1])
         /\ GLM.df_model m + GLM.df_resid m = Z.of_nat n - 1
         /\ GLM.family m = identity_family Gaussian.
Proof.
  build_model.
  apply (GLM_init_degrees_of_freedom column_pinv column_rank
           (identity_family Gaussian) (vec [0; 1; 2]) (col [1; 1; 1]) None
           m0 Hm).
Defined.

Lemma nobs_is_rows_witness :
  exists m, new_model (vec [0; 1; 2]) (col [1; 1; 1]) None = Ok m
    /\ Family.class (GLM.family m) <> Binomial
    /\ exists m' r,
         run_fit m default_args = Some (m', Ok r)
         /\ shape0 (vec [0; 1; 2]) = Ok (Z.to_nat (Results.nobs r))
         /\ Results.nobs r = Results.df_model r + Results.df_resid r + 1.
Proof.
  run_scenario (fun (m _ : GLM.t) (out : result Results.t) =>
                  is_ok out
                  && negb (bool_decide (Family.class (GLM.family m)
                                        = Binomial))).
  returned r.
  match goal with H : Family.class _ <> _ |- _ => rename H into Hnb end.
  split; [exact Hnb|]. exists m', r. split; [exact Hfit|].
  apply (nobs_is_rows column_WLS column_pinv column_rank
           (identity_family Gaussian) (vec [0; 1; 2]) (col [1; 1; 1]) None
           m0 default_args m' r Hm Hnb Hfit).
Defined.

Lemma initialize_resets_witness :
  exists m, new_model (vec [0; 1; 2]) (col [1; 1; 1]) None = Ok m
    /\ exists m' r,
         run_fit m default_args = Some (m', Ok r)
         /\ exists m2 out,
             initialize column_pinv column_rank m' = (m2, out)
             /\ GLM.history m2
                = {| History.fittedvalues := [];
                     History.params := [Scalar inf];
                     History.deviance := [inf] |}
             /\ GLM.iteration m2 = 0
             /\ GLM.endog m2 = GLM.endog m'
             /\ (forall exog params linear,
                   predict m2 exog params linear
                   = predict m' exog params linear)
             /\ initialize column_pinv column_rank m2 = (m2, out).
Proof.
  run_scenario (fun (_ _ : GLM.t) (out : result Results.t) => is_ok out).
  returned r. exists m', r. split; [exact Hfit|].
  destruct (initialize column_pinv column_rank m') as [m2 out] eqn:Hi.
  exists m2, out. split; [reflexivity|].
  apply (initialize_resets column_pinv column_rank m' m2 out Hi).
Defined.

Lemma binomial_refit_initializes_again_witness :
  exists m, new_model (Matrix [[of_Z 3; of_Z 1]; [of_Z 1; of_Z 1];
                               [of_Z 2; of_Z 2]])
              (col [1; 1; 1]) (Some (identity_family Binomial)) = Ok m
    /\ Family.class (GLM.family m) = Binomial
    /\ exists m1 r1 m2 r2,
         run_fit m default_args = Some (m1, Ok r1)
         /\ run_fit m1 default_args = Some (m2, Ok r2)
         /\ GLM.endog m2
            = Family.initialize (GLM.family m)
                (Family.initialize (GLM.family m) (GLM.endog m))
         /\ Results._endog r2 = GLM.endog m2
         /\ Results._endog r1
            = Family.initialize (GLM.family m) (GLM.endog m).
Proof.
  run_scenario (fun (m m1 : GLM.t) (out : result Results.t) =>
                  is_ok out
                  && bool_decide (Family.class (GLM.family m) = Binomial)
                  && match run_fit m1 default_args with
                     | Some (_, out2) => is_ok out2
                     | None => false
                     end).
  returned r1.
  match goal with H : Family.class _ = _ |- _ => rename H into Hb end.
  destruct (run_fit m' default_args) as [[m2 [r2|]]|] eqn:Hfit2;
    try discriminate.
  split; [exact Hb|]. exists m', r1, m2, r2.
  split; [exact Hfit|]. split; [exact Hfit2|].
  apply (binomial_refit_initializes_again column_WLS m0 default_args
           default_args m' m2 r1 r2 Hb Hfit Hfit2).
Defined.
